(** * unicampi: crawler repositories, online filter and content finder

    A shallow embedding of [unicampi/repositories/crawlers/base.py] and the
    properties of its three classes: [OnlineFilter], [ContentFinder] and
    [CrawlerRepository].

    Python values are restricted to [None], integers, text and lists of
    these; a text is a sequence of characters below 256.  Exceptions are
    explicit: every operation that can raise returns a [result]. *)

From Stdlib Require Import ZArith String Ascii List Lia Permutation.
From Stdlib.Strings Require Import Byte.
From stdpp Require Import base gmap strings.
Import ListNotations.

Set Warnings "-register-all".

Local Open Scope string_scope.
Local Open Scope Z_scope.

(** ** Exceptions *)

(** What a [RuntimeError] of this module says.  The second message formats a
    set, whose printed order is not determined; the set itself is kept. *)
Inductive runtime_message :=
  | UnknownOperator (operator : string)
  | MustBeFilteredBy (required : gset string).

Inductive exn :=
  | RuntimeError (msg : runtime_message)
  | TypeError
  | ValueError
  | IndexError
  | KeyError (msg : string)
  | UnboundLocalError (name : string)
  | NotImplementedError
  | OtherError (name : string).

Inductive result (A : Type) :=
  | Ok (a : A)
  | Raise (e : exn).
Arguments Ok {A} a.
Arguments Raise {A} e.

(** Sequencing: an exception raised by the first step ends the computation. *)
#[global] Instance result_bind : MBind result := fun A B k r =>
  match r with
  | Ok a => k a
  | Raise e => Raise e
  end.

Definition result_to_option {A} (r : result A) : option A :=
  match r with
  | Ok a => Some a
  | Raise _ => None
  end.

(** ** Values *)

Inductive value :=
  | VNone
  | VInt (n : Z)
  | VStr (s : string)
  | VList (items : list value).

(** [a == b] *)
Fixpoint py_eq (a b : value) : bool :=
  match a, b with
  | VNone, VNone => true
  | VInt x, VInt y => Z.eqb x y
  | VStr s, VStr t => String.eqb s t
  | VList l, VList m =>
      (fix items_eq (l m : list value) : bool :=
         match l, m with
         | [], [] => true
         | x :: l', y :: m' => py_eq x y && items_eq l' m'
         | _, _ => false
         end) l m
  | _, _ => false
  end.

(** [a != b] *)
Definition py_ne (a b : value) : bool := negb (py_eq a b).

(** ** Text *)

(** [pattern in text], for two texts: [pattern] occurs in [text]. *)
Fixpoint str_contains (pattern text : string) : bool :=
  match text with
  | EmptyString => String.prefix pattern EmptyString
  | String _ rest => String.prefix pattern text || str_contains pattern rest
  end.

(** [x in container].  A list holds [x] when one of its items equals it; a
    text holds only texts; [None] and integers hold nothing and raise. *)
Definition py_in (x container : value) : result bool :=
  match container with
  | VList items => Ok (existsb (py_eq x) items)
  | VStr text =>
      match x with
      | VStr pattern => Ok (str_contains pattern text)
      | _ => Raise TypeError
      end
  | VNone | VInt _ => Raise TypeError
  end.

(** [x not in container] *)
Definition py_not_in (x container : value) : result bool :=
  b ← py_in x container; Ok (negb b).

(** [text.split(sep)] for a non-empty [sep]: the separators are found from
    the left and do not overlap.  [skip] counts the characters of a
    separator still to pass, [piece] is the piece read so far. *)
Fixpoint split_from (sep : string) (skip : nat) (piece text : string)
  : list string :=
  match text with
  | EmptyString => [piece]
  | String c rest =>
      match skip with
      | S k => split_from sep k piece rest
      | O =>
          if String.prefix sep text
          then piece :: split_from sep (Nat.pred (String.length sep)) EmptyString rest
          else split_from sep O (piece +:+ String c EmptyString) rest
      end
  end.

Definition py_split (text sep : string) : result (list string) :=
  if String.eqb sep EmptyString then Raise ValueError
  else Ok (split_from sep O EmptyString text).

(** [sep.join(parts)] *)
Fixpoint py_join (sep : string) (parts : list string) : string :=
  match parts with
  | [] => EmptyString
  | [p] => p
  | p :: rest => p +:+ sep +:+ py_join sep rest
  end.

(** The characters below 256 for which [str.isspace] holds: tab to carriage
    return, the four separators, the space, next line and the no-break
    space. *)
Definition is_space (c : ascii) : bool :=
  let n := nat_of_ascii c in
  ((9 <=? n) && (n <=? 13) || (28 <=? n) && (n <=? 32)
   || (n =? 133) || (n =? 160))%nat.

Fixpoint lstrip_chars (cs : list ascii) : list ascii :=
  match cs with
  | c :: rest => if is_space c then lstrip_chars rest else cs
  | [] => []
  end.

(** [text.strip()] *)
Definition py_strip (text : string) : string :=
  string_of_list_ascii
    (rev (lstrip_chars (rev (lstrip_chars (list_ascii_of_string text))))).

(** The line feed, the default separator of [ContentFinder]. *)
Definition LF : string := String (ascii_of_nat 10) EmptyString.

(** Truth value of a text: the empty text is false. *)
Definition str_truthy (s : string) : bool := negb (String.eqb s EmptyString).

(** ** OnlineFilter *)

(** [entry.get(field)]: a field the entry lacks reads as [None]. *)
Definition entry_get (entry : gmap string value) (field : string) : value :=
  default VNone (entry !! field).

Definition VALID_OPERATORS
  : list (string * (gmap string value -> string -> value -> result bool)) :=
  [ ("equals", fun entry field value => Ok (py_eq (entry_get entry field) value));
    ("not_equals", fun entry field value => Ok (py_ne (entry_get entry field) value));
    ("in", fun entry field value => py_in (entry_get entry field) value);
    ("not_in", fun entry field value => py_not_in (entry_get entry field) value);
    ("contains", fun entry field value => py_in value (entry_get entry field));
    ("not_contains", fun entry field value => py_in value (entry_get entry field)) ].

(** [VALID_OPERATORS[operator]], [None] when [operator not in VALID_OPERATORS]. *)
Definition operator_lookup (operator : string)
  : option (gmap string value -> string -> value -> result bool) :=
  snd <$> List.find (fun row => String.eqb operator (fst row)) VALID_OPERATORS.

(** The field and the operator a key of the query names. *)
Definition resolve (field_and_maybe_operator : string) : string * string :=
  let parts := split_from "__" O "" field_and_maybe_operator in
  if Nat.eqb (length parts) 1
  then (py_join "__" parts, "equals")
  else (py_join "__" (removelast parts), List.last parts "").

(** One turn of the loop over the query: the predicate of one item. *)
Definition eval_predicate (entry : gmap string value) (item : string * value)
  : result bool :=
  let '(field, operator) := resolve (fst item) in
  match operator_lookup operator with
  | None => Raise (RuntimeError (UnknownOperator operator))
  | Some test => test entry field (snd item)
  end.

(** The loop over [self.query.items()]; it stops at the first predicate that
    does not hold. *)
Fixpoint matches_query (query : list (string * value)) (entry : gmap string value)
  : result bool :=
  match query with
  | [] => Ok true
  | item :: rest =>
      matches ← eval_predicate entry item;
      if (matches : bool) then matches_query rest entry else Ok false
  end.

(** The loop over [entries]. *)
Fixpoint commit_loop (query : list (string * value))
    (entries matched_entries : list (gmap string value))
  : result (list (gmap string value)) :=
  match entries with
  | [] => Ok matched_entries
  | entry :: rest =>
      matches ← matches_query query entry;
      commit_loop query rest
        (if (matches : bool) then (matched_entries ++ [entry])%list else matched_entries)
  end.

Definition commit (query : list (string * value)) (entries : list (gmap string value))
  : result (list (gmap string value)) :=
  commit_loop query entries [].

(** A predicate holds when it evaluates to true. *)
Definition holds (entry : gmap string value) (item : string * value) : bool :=
  match eval_predicate entry item with
  | Ok true => true
  | _ => false
  end.

(** Every predicate of the query holds. *)
Definition all_hold (query : list (string * value)) (entry : gmap string value)
  : bool :=
  forallb (holds entry) query.

Definition returns {A} (r : result A) : Prop :=
  match r with Ok _ => True | Raise _ => False end.

(** The constructor, called with the items of a query as keyword arguments:
    the filter keeps the query.  A key named [self] collides with the first
    parameter of [__init__] and the call raises. *)
Definition OnlineFilter_init (query : list (string * value))
  : result (list (string * value)) :=
  if existsb (String.eqb "self") (map fst query)
  then Raise TypeError
  else Ok query.

(** ** ContentFinder *)

Record ContentFinder := {
  data : string;
  split : list string;
}.

(** [ContentFinder(data, separator)] *)
Definition ContentFinder_init (data separator : string) : result ContentFinder :=
  pieces ← py_split data separator;
  Ok {| data := data;
        split := map py_strip
                   (List.filter (fun s => str_truthy (py_strip s)) pieces) |}.

(** An index of a sequence of length [n], as a slice bound: counted from the
    end when negative, then brought into [0..n]. *)
Definition slice_bound (n i : Z) : Z :=
  if i <? 0 then Z.max (i + n) 0 else Z.min i n.

(** [l[lo:hi]] *)
Definition py_slice {A} (l : list A) (lo hi : Z) : list A :=
  let n := Z.of_nat (length l) in
  let lo' := slice_bound n lo in
  let hi' := slice_bound n hi in
  firstn (Z.to_nat (hi' - lo')) (skipn (Z.to_nat lo') l).

(** [l[i]] *)
Definition py_getitem {A} (l : list A) (i : Z) : result A :=
  let n := Z.of_nat (length l) in
  let j := if i <? 0 then i + n else i in
  if (0 <=? j) && (j <? n)
  then match l !! Z.to_nat j with
       | Some x => Ok x
       | None => Raise IndexError
       end
  else Raise IndexError.

(** [for piece, i in zip(pieces, range(i, ...)): if pattern in piece: ...; break]:
    the index the loop assigns, [None] when it assigns nothing. *)
Fixpoint first_containing (pattern : string) (pieces : list string) (i : Z)
  : option Z :=
  match pieces with
  | [] => None
  | piece :: rest =>
      if str_contains pattern piece then Some i
      else first_containing pattern rest (i + 1)
  end.

(** Reading a local variable that may not have been assigned. *)
Definition read_local (name : string) (v : option Z) : result Z :=
  match v with
  | Some x => Ok x
  | None => Raise (UnboundLocalError name)
  end.

(** What [find_by_content] returns: a slice or one piece. *)
Inductive found :=
  | Pieces (l : list string)
  | Piece (s : string).

(** Truth value of [count]: [None] and [0] are false. *)
Definition count_truthy (count : option Z) : bool :=
  match count with
  | Some c => negb (c =? 0)
  | None => false
  end.

(** Truth value of [end_pattern]: [None] and the empty text are false. *)
Definition end_pattern_truthy (end_pattern : option string) : bool :=
  match end_pattern with
  | Some p => str_truthy p
  | None => false
  end.

(** [find_by_content] for a text pattern, which the [decode] at the start
    leaves as it is; [find_by_content_any] below takes bytes as well. *)
Definition find_by_content (self : ContentFinder) (pattern : string)
    (offset : Z) (count : option Z) (end_pattern : option string)
  : result found :=
  let start_at := first_containing pattern (split self) 0 in
  if count_truthy count then
    start ← read_local "start_at" start_at;
    Ok (Pieces (py_slice (split self) (start + offset) (start + default 0 count)))
  else if end_pattern_truthy end_pattern then
    start ← read_local "start_at" start_at;
    let n := Z.of_nat (length (split self)) in
    let end_idx :=
      first_containing (default "" end_pattern) (py_slice (split self) start n) start in
    stop ← read_local "end_idx" end_idx;
    Ok (Pieces (py_slice (split self) (start + offset) stop))
  else
    start ← read_local "start_at" start_at;
    piece ← py_getitem (split self) (start + offset);
    Ok (Piece piece).

(** A pattern as a caller may pass it: a text or bytes. *)
Inductive pattern_arg :=
  | TextPattern (text : string)
  | BytesPattern (bytes : list Byte.byte).

(** [pattern in piece] for a pattern of either kind: bytes are not looked
    for in a text, the test raises. *)
Definition pattern_in (pattern : pattern_arg) (piece : string) : result bool :=
  match pattern with
  | TextPattern text => Ok (str_contains text piece)
  | BytesPattern _ => Raise TypeError
  end.

(** The first loop of [find_by_content] for a pattern of either kind. *)
Fixpoint scan_pieces (pattern : pattern_arg) (pieces : list string) (i : Z)
  : result (option Z) :=
  match pieces with
  | [] => Ok None
  | piece :: rest =>
      inside ← pattern_in pattern piece;
      if (inside : bool) then Ok (Some i) else scan_pieces pattern rest (i + 1)
  end.

Section Decoding.
(** [bytes.decode('utf-8')] of the library, [None] when it raises. *)
Variable utf8_decode : list Byte.byte -> option string.

(** [try: pattern = pattern.decode('utf-8') except: pass]: a text has no
    [decode] and bytes that do not decode raise; both errors are passed
    over and leave the pattern as it is. *)
Definition decode_pattern (pattern : pattern_arg) : pattern_arg :=
  match pattern with
  | TextPattern text => TextPattern text
  | BytesPattern bytes =>
      match utf8_decode bytes with
      | Some text => TextPattern text
      | None => BytesPattern bytes
      end
  end.

(** [find_by_content] for a pattern of either kind. *)
Definition find_by_content_any (self : ContentFinder) (pattern : pattern_arg)
    (offset : Z) (count : option Z) (end_pattern : option string)
  : result found :=
  let pattern := decode_pattern pattern in
  start_at ← scan_pieces pattern (split self) 0;
  if count_truthy count then
    start ← read_local "start_at" start_at;
    Ok (Pieces (py_slice (split self) (start + offset) (start + default 0 count)))
  else if end_pattern_truthy end_pattern then
    start ← read_local "start_at" start_at;
    let n := Z.of_nat (length (split self)) in
    let end_idx :=
      first_containing (default "" end_pattern) (py_slice (split self) start n) start in
    stop ← read_local "end_idx" end_idx;
    Ok (Pieces (py_slice (split self) (start + offset) stop))
  else
    start ← read_local "start_at" start_at;
    piece ← py_getitem (split self) (start + offset);
    Ok (Piece piece).
End Decoding.

(** ** CrawlerRepository *)

(** The exceptions [find] catches. *)
Definition is_lookup_error (e : exn) : bool :=
  match e with
  | IndexError | KeyError _ | UnboundLocalError _ => true
  | _ => false
  end.

Section CrawlerRepository.
(** What a subclass supplies: the state the hooks act on, the required
    fields, the query of the repository and the two hooks; and what the
    objects used as ids are: [str x], which may raise, and the items of [x]
    when [x] is a tuple. *)
Context {World Id : Type}.
Variable _required_querying_fields : gset string.
Variable query : list (string * value).
Variable _fetch_and_parse_all : World -> result (list (gmap string value)) * World.
Variable _fetch_and_parse_one : Id -> World -> result (gmap string value) * World.
Variable str : Id -> result string.
Variable tuple_items : Id -> option (list Id).

Definition _assert_valid_query : result unit :=
  if decide (_required_querying_fields ⊆ list_to_set (map fst query))
  then Ok tt
  else Raise (RuntimeError (MustBeFilteredBy _required_querying_fields)).

Definition new_query : list (string * value) :=
  List.filter
    (fun item => bool_decide (fst item ∉ _required_querying_fields)) query.

Definition all (w : World) : result (list (gmap string value)) * World :=
  match _assert_valid_query with
  | Raise e => (Raise e, w)
  | Ok _ =>
      let '(fetched, w') := _fetch_and_parse_all w in
      (entries ← fetched;
       online_filter ← OnlineFilter_init new_query;
       commit online_filter entries, w')
  end.

(** ['unknown entry %s' % id]: a tuple on the right of [%] is the list of
    the arguments, of which the format takes exactly one; any other object
    is the one argument. *)
Definition format_unknown_entry (id : Id) : result string :=
  match tuple_items id with
  | Some [item] => text ← str item; Ok ("unknown entry " +:+ text)
  | Some _ => Raise TypeError
  | None => text ← str id; Ok ("unknown entry " +:+ text)
  end.

Definition find (id : Id) (w : World) : result (gmap string value) * World :=
  let '(fetched, w') := _fetch_and_parse_one id w in
  match fetched with
  | Ok entry => (Ok entry, w')
  | Raise e =>
      if is_lookup_error e
      then (msg ← format_unknown_entry id; Raise (KeyError msg), w')
      else (Raise e, w')
  end.
End CrawlerRepository.

(** The hooks of the base class: both raise [NotImplementedError]. *)
Definition base_fetch_and_parse_all {World : Type} (w : World)
  : result (list (gmap string value)) * World :=
  (Raise NotImplementedError, w).

Definition base_fetch_and_parse_one {World Id : Type} (id : Id) (w : World)
  : result (gmap string value) * World :=
  (Raise NotImplementedError, w).




(** ** Vocabulary of the statements *)

(** The last character of the text is an underscore. *)
Fixpoint ends_with_underscore (s : string) : bool :=
  match s with
  | EmptyString => false
  | String c rest =>
      match rest with
      | EmptyString => Ascii.eqb c "_"
      | String _ _ => ends_with_underscore rest
      end
  end.

(** Two lists split a third: no record is in both, and together they hold
    the records of the third, each as often as there. *)
Definition partitions {A} (l1 l2 all : list A) : Prop :=
  (forall x, x ∈ l1 -> x ∉ l2) /\ Permutation (l1 ++ l2)%list all.

(** [idx] is the first index from [start] on whose piece contains the
    pattern. *)
Definition first_match_from (pattern : string) (pieces : list string)
    (start idx : nat) : Prop :=
  (start <= idx)%nat
  /\ (exists piece, pieces !! idx = Some piece /\ str_contains pattern piece = true)
  /\ (forall j piece, (start <= j < idx)%nat -> pieces !! j = Some piece ->
        str_contains pattern piece = false).

(** * Properties *)

Example split_plain : split_from "__" O "" "name__in" = ["name"; "in"].
Proof. reflexivity. Qed.

Example split_three_underscores : split_from "__" O "" "a___b" = ["a"; "_b"].
Proof. reflexivity. Qed.

Example split_trailing : split_from "__" O "" "a__" = ["a"; ""].
Proof. reflexivity. Qed.

Example split_four_underscores :
  split_from "__" O "" "a____b" = ["a"; ""; "b"].
Proof. reflexivity. Qed.

Example split_on_line_feed :
  py_split ("a" +:+ LF +:+ LF +:+ "b" +:+ LF) LF = Ok ["a"; ""; "b"; ""].
Proof. reflexivity. Qed.

Example resolve_nested_field : resolve "teacher__name__in" = ("teacher__name", "in").
Proof. reflexivity. Qed.

Example slice_from_the_end : py_slice ["a"; "b"; "c"; "d"] (-1) 4 = ["d"].
Proof. reflexivity. Qed.

Example slice_past_the_end : py_slice ["a"; "b"; "c"; "d"] 2 9 = ["c"; "d"].
Proof. reflexivity. Qed.

Example slice_crossed : py_slice ["a"; "b"; "c"; "d"] 2 1 = [].
Proof. reflexivity. Qed.

Example item_from_the_end : py_getitem ["a"; "b"; "c"] (-1) = Ok "c".
Proof. reflexivity. Qed.

Example item_out_of_range : py_getitem ["a"; "b"; "c"] 3 = Raise IndexError.
Proof. reflexivity. Qed.

Example docstring_example :
  commit [("name__in", VList [VStr "lucas"; VStr "jessica"])]
    (map (fun n => {[ "name" := VStr n ]}) ["lucas"; "kelly"; "adam"; "jessica"])
  = Ok [ {[ "name" := VStr "lucas" ]}; {[ "name" := VStr "jessica" ]} ].
Proof. vm_compute. reflexivity. Qed.

Example finder_first_piece :
  (self ← ContentFinder_init ("a" +:+ LF +:+ "b" +:+ LF +:+ "c" +:+ LF) LF;
   find_by_content self "b" 0 None None) = Ok (Piece "b").
Proof. vm_compute. reflexivity. Qed.

Example finder_strips_and_drops_blank :
  split <$> result_to_option (ContentFinder_init ("  a " +:+ LF +:+ "   " +:+ LF +:+ LF +:+ "b") LF)
  = Some ["a"; "b"].
Proof. vm_compute. reflexivity. Qed.

(** ** Text: splitting and joining on two underscores *)

Lemma string_length_ind (P : string -> Prop) :
  (forall s, (forall t, (String.length t < String.length s)%nat -> P t) -> P s) ->
  forall s, P s.
Proof.
  intros step s. remember (String.length s) as n eqn:Hn.
  revert s Hn. induction n as [n IH] using lt_wf_ind. intros s ->.
  apply step. intros t Ht. now apply (IH (String.length t)).
Qed.

Lemma append_String (x : ascii) (a b : string) :
  String x a +:+ b = String x (a +:+ b).
Proof. reflexivity. Qed.

Lemma append_empty_l (a : string) : "" +:+ a = a.
Proof. reflexivity. Qed.

Lemma append_assoc (a b c : string) : (a +:+ b) +:+ c = a +:+ (b +:+ c).
Proof.
  induction a as [|x a IH]; [reflexivity|].
  rewrite !append_String. now rewrite IH.
Qed.

Lemma append_empty_r (a : string) : a +:+ "" = a.
Proof.
  induction a as [|x a IH]; [reflexivity|].
  rewrite append_String. now rewrite IH.
Qed.

Lemma prefix_dunder (s : string) :
  String.prefix "__" s = true <-> exists rest, s = String "_" (String "_" rest).
Proof.
  split.
  - destruct s as [|a [|b rest]]; cbn [String.prefix]; try discriminate.
    + destruct (ascii_dec "_" a); discriminate.
    + destruct (ascii_dec "_" a) as [<-|]; [|discriminate].
      destruct (ascii_dec "_" b) as [<-|]; [|discriminate]. eauto.
  - intros [rest ->]. now destruct rest.
Qed.

Lemma split_from_nonempty sep skip piece text : split_from sep skip piece text <> [].
Proof.
  revert skip piece.
  induction text as [|c rest IH]; intros skip piece; cbn [split_from].
  - congruence.
  - destruct skip; [|apply IH].
    destruct (String.prefix sep (String c rest)); [congruence | apply IH].
Qed.

Lemma py_join_cons sep p rest :
  rest <> [] -> py_join sep (p :: rest) = p +:+ sep +:+ py_join sep rest.
Proof. destruct rest; [congruence | reflexivity]. Qed.

Lemma split_from_dunder (piece rest : string) :
  split_from "__" O piece (String "_" (String "_" rest))
  = piece :: split_from "__" O "" rest.
Proof.
  cbn [split_from].
  rewrite (proj2 (prefix_dunder (String "_" (String "_" rest)))) by eauto.
  reflexivity.
Qed.

(** Joining what [split] gave restores the text. *)
Lemma py_join_split (text piece : string) :
  py_join "__" (split_from "__" O piece text) = piece +:+ text.
Proof.
  revert piece. induction text as [text IH] using string_length_ind. intros piece.
  destruct text as [|c rest]; [cbn [split_from py_join]; now rewrite append_empty_r|].
  destruct (String.prefix "__" (String c rest)) eqn:Hp.
  - apply prefix_dunder in Hp as [tail [= -> ->]].
    rewrite split_from_dunder.
    rewrite py_join_cons by apply split_from_nonempty.
    rewrite IH by (cbn [String.length]; lia). reflexivity.
  - cbn [split_from]. rewrite Hp.
    rewrite IH by (cbn [String.length]; lia). now rewrite append_assoc.
Qed.

(** A key made of a field that does not end in an underscore, two
    underscores and an operator splits into the parts of the field and the
    operator. *)
Lemma split_then_operator (operator : string)
    (Hop : split_from "__" O "" operator = [operator]) (field piece : string) :
  ends_with_underscore field = false ->
  split_from "__" O piece (field +:+ "__" +:+ operator)
  = (split_from "__" O piece field ++ [operator])%list.
Proof.
  revert piece. induction field as [field IH] using string_length_ind.
  intros piece Hend.
  destruct field as [|c rest].
  - change ("" +:+ "__" +:+ operator) with (String "_" (String "_" operator)).
    rewrite split_from_dunder, Hop. reflexivity.
  - rewrite append_String.
    destruct (String.prefix "__" (String c (rest +:+ "__" +:+ operator))) eqn:Hp.
    + apply prefix_dunder in Hp as [tail [= -> Htail]].
      destruct rest as [|c' rest']; [discriminate Hend|].
      rewrite append_String in Htail. injection Htail as -> Htail.
      rewrite append_String, !split_from_dunder. cbn [app]. f_equal.
      apply IH; [cbn [String.length]; lia|].
      destruct rest' as [|c'' rest'']; [reflexivity | exact Hend].
    + assert (Hp' : String.prefix "__" (String c rest) = false).
      { destruct (String.prefix "__" (String c rest)) eqn:Hq; [|reflexivity].
        apply prefix_dunder in Hq as [tail [= -> ->]].
        rewrite append_String in Hp.
        now rewrite (proj2 (prefix_dunder _)) in Hp by eauto. }
      cbn [split_from]. rewrite Hp, Hp'. apply IH; [cbn [String.length]; lia|].
      destruct rest as [|c' rest']; [reflexivity | exact Hend].
Qed.

Lemma resolve_with_operator (field operator : string) :
  ends_with_underscore field = false ->
  split_from "__" O "" operator = [operator] ->
  resolve (field +:+ "__" +:+ operator) = (field, operator).
Proof.
  intros Hend Hop. unfold resolve.
  rewrite (split_then_operator operator Hop field "" Hend).
  pose proof (split_from_nonempty "__" O "" field) as Hne.
  pose proof (py_join_split field "") as Hjoin.
  destruct (split_from "__" O "" field) as [|p ps] eqn:Hs; [congruence|].
  replace (length ((p :: ps) ++ [operator])%list =? 1)%nat with false.
  - rewrite removelast_last, last_last. now rewrite Hjoin.
  - symmetry. apply Nat.eqb_neq. rewrite length_app. simpl. lia.
Qed.

Lemma resolve_plain (field : string) :
  split_from "__" O "" field = [field] -> resolve field = (field, "equals").
Proof. intros Hs. unfold resolve. now rewrite Hs. Qed.

(** ** The result monad *)

Lemma bind_Ok {A B} (a : A) (k : A -> result B) : (Ok a ≫= k) = k a.
Proof. reflexivity. Qed.

Lemma bind_Raise {A B} (e : exn) (k : A -> result B) : (Raise e ≫= k) = Raise e.
Proof. reflexivity. Qed.

Lemma bind_returns {A B} (r : result A) (k : A -> result B) (b : B) :
  (r ≫= k) = Ok b -> exists a, r = Ok a /\ k a = Ok b.
Proof. destruct r as [a|e]; [eauto | discriminate]. Qed.

Lemma returns_Ok {A} (r : result A) : returns r <-> exists a, r = Ok a.
Proof.
  destruct r as [a|e]; simpl; split; eauto.
  - intros [].
  - intros [a Ha]. discriminate.
Qed.

(** ** OnlineFilter.commit *)

(** The scan of the query, when it returns, says whether all predicates hold. *)
Lemma matches_query_all_hold query entry b :
  matches_query query entry = Ok b -> b = all_hold query entry.
Proof.
  revert b. induction query as [|item rest IH]; intros b; simpl.
  - congruence.
  - unfold holds. destruct (eval_predicate entry item) as [[|]|e]; simpl.
    + apply IH.
    + congruence.
    + discriminate.
Qed.

(** If every predicate can be evaluated, the scan returns. *)
Lemma matches_query_returns query entry :
  (forall item, item ∈ query -> returns (eval_predicate entry item)) ->
  returns (matches_query query entry).
Proof.
  induction query as [|item rest IH]; intros Hev; simpl; [exact I|].
  pose proof (Hev item ltac:(left)) as Hitem.
  destruct (eval_predicate entry item) as [[|]|e]; simpl in *; try easy.
  apply IH. intros it Hit. apply Hev. now right.
Qed.

(** The accumulator only grows at its end. *)
Lemma commit_loop_acc query entries matched :
  commit_loop query entries matched
  = (l ← commit_loop query entries []; Ok (matched ++ l)%list).
Proof.
  revert matched. induction entries as [|entry rest IH]; intros matched; simpl.
  - now rewrite app_nil_r.
  - destruct (matches_query query entry) as [[|]|e]; simpl; try reflexivity.
    + rewrite (IH (matched ++ [entry])%list), (IH [entry]).
      destruct (commit_loop query rest []) as [l|e]; simpl; [|reflexivity].
      now rewrite <- app_assoc.
    + apply IH.
Qed.

Lemma commit_cons query entry rest :
  commit query (entry :: rest)
  = (matches ← matches_query query entry;
     l ← commit query rest;
     Ok (if (matches : bool) then entry :: l else l)).
Proof.
  unfold commit. simpl.
  destruct (matches_query query entry) as [[|]|e]; simpl; try reflexivity.
  - now rewrite commit_loop_acc.
  - now destruct (commit_loop query rest []).
Qed.

Lemma commit_returns_iff query entries l :
  commit query entries = Ok l <->
  (forall entry, entry ∈ entries -> returns (matches_query query entry))
  /\ l = List.filter (all_hold query) entries.
Proof.
  revert l. induction entries as [|entry rest IH]; intros l.
  - unfold commit; simpl. split.
    + intros [= <-]. split; [|reflexivity]. intros e He. inversion He.
    + intros [_ ->]. reflexivity.
  - rewrite commit_cons. split.
    + intros H. apply bind_returns in H as (b & Hb & H).
      apply bind_returns in H as (l' & Hl' & H). injection H as <-.
      apply IH in Hl' as [Hret ->].
      apply matches_query_all_hold in Hb as Hb'. split.
      * intros e He. apply list_elem_of_In in He. destruct He as [<-|He].
        -- now rewrite Hb.
        -- apply Hret. now apply list_elem_of_In.
      * simpl. rewrite <- Hb'. now destruct b.
    + intros [Hret ->].
      pose proof (Hret entry ltac:(left)) as Hentry.
      apply returns_Ok in Hentry as [b Hb]. rewrite Hb. simpl.
      assert (Hrest : commit query rest = Ok (List.filter (all_hold query) rest)).
      { apply IH. split; [|reflexivity]. intros e He. apply Hret. now right. }
      rewrite Hrest. simpl.
      apply matches_query_all_hold in Hb as <-. reflexivity.
Qed.

(** A list keeps its order under [List.filter]. *)
Lemma filter_sublist {A} (f : A -> bool) (l : list A) :
  sublist (List.filter f l) l.
Proof.
  induction l as [|x l IH]; simpl; [constructor|].
  destruct (f x); now constructor.
Qed.

(** C1, as stated, fails: a query naming an unknown operator makes [commit]
    raise on a non-empty list of records, so nothing is returned there. *)
Lemma commit_unknown_operator_raises :
  commit [("name__bogus", VInt 1)] [∅]
  = Raise (RuntimeError (UnknownOperator "bogus"))
  /\ commit [("name__bogus", VInt 1)] [∅]
     <> Ok (List.filter (all_hold [("name__bogus", VInt 1)]) [∅]).
Proof. split; [vm_compute; reflexivity | vm_compute; discriminate]. Qed.

(** The scan of the query raises exactly when the predicates before some
    item hold and that item's predicate raises. *)
Lemma matches_query_raises_iff
    (query : list (string * value)) (entry : gmap string value) (e : exn) :
  matches_query query entry = Raise e <->
  exists passed item rest,
    query = (passed ++ item :: rest)%list
    /\ (forall p, p ∈ passed -> eval_predicate entry p = Ok true)
    /\ eval_predicate entry item = Raise e.
Proof.
  split.
  - induction query as [|item rest IH]; cbn [matches_query]; [discriminate|].
    destruct (eval_predicate entry item) as [[|]|e'] eqn:Hitem.
    + rewrite bind_Ok. intros H.
      destruct (IH H) as (passed & item' & rest' & -> & Hpassed & Hraise).
      exists (item :: passed), item', rest'. split; [reflexivity|].
      split; [|exact Hraise].
      intros p Hp. apply list_elem_of_In in Hp. destruct Hp as [<-|Hp];
        [exact Hitem | apply Hpassed; now apply list_elem_of_In].
    + rewrite bind_Ok. discriminate.
    + rewrite bind_Raise. intros [= ->].
      exists [], item, rest. split; [reflexivity|]. split; [|exact Hitem].
      intros p Hp. inversion Hp.
  - intros (passed & item & rest & -> & Hpassed & Hraise).
    induction passed as [|p passed IH]; cbn [app matches_query].
    + now rewrite Hraise.
    + rewrite (Hpassed p) by left. rewrite bind_Ok.
      apply IH. intros q Hq. apply Hpassed. now right.
Qed.

(** [commit] raises what the scan of the first record it cannot scan
    raises. *)
Lemma commit_raises_first
    (query : list (string * value)) (before : list (gmap string value))
    (entry : gmap string value) (after : list (gmap string value)) (e : exn) :
  (forall x, x ∈ before -> returns (matches_query query x)) ->
  matches_query query entry = Raise e ->
  commit query (before ++ entry :: after)%list = Raise e.
Proof.
  intros Hbefore Hentry. induction before as [|x before IH]; cbn [app].
  - rewrite commit_cons, Hentry. reflexivity.
  - rewrite commit_cons.
    pose proof (Hbefore x ltac:(left)) as Hx.
    apply returns_Ok in Hx as [b Hb]. rewrite Hb, bind_Ok.
    rewrite IH; [reflexivity|]. intros y Hy. apply Hbefore. now right.
Qed.

(** C1 (amended): for every query and every list of records on which the
    scan of the query raises for no record (each operator it reaches is
    known and each membership test it reaches has a container), [commit]
    returns exactly the records for which every predicate of the query
    holds, a predicate being the (field, operator, value) its key resolves
    to; the result is a sublist of the input, in the input's order.  On
    every other input [commit] raises, and what it raises is what the scan
    of the first record that cannot be scanned raises: the exception of the
    first predicate of the query that raises on that record after the
    predicates before it held. *)
Theorem commit_returns_matching
    (query : list (string * value)) (entries : list (gmap string value)) :
  ((forall entry, entry ∈ entries -> returns (matches_query query entry)) ->
   commit query entries = Ok (List.filter (all_hold query) entries)
   /\ sublist (List.filter (all_hold query) entries) entries
   /\ (forall entry,
         entry ∈ List.filter (all_hold query) entries <->
         entry ∈ entries
         /\ forall item, item ∈ query -> eval_predicate entry item = Ok true))
  /\ (~ (forall entry, entry ∈ entries -> returns (matches_query query entry)) ->
      exists e, commit query entries = Raise e)
  /\ (forall before entry after e,
        entries = (before ++ entry :: after)%list ->
        (forall x, x ∈ before -> returns (matches_query query x)) ->
        matches_query query entry = Raise e ->
        commit query entries = Raise e
        /\ exists passed item rest,
             query = (passed ++ item :: rest)%list
             /\ (forall p, p ∈ passed -> eval_predicate entry p = Ok true)
             /\ eval_predicate entry item = Raise e).
Proof.
  split; [|split].
  - intros Hscan. split; [|split].
    + apply commit_returns_iff. now split.
    + apply filter_sublist.
    + intros entry. rewrite !list_elem_of_In, filter_In.
      unfold all_hold. rewrite forallb_forall.
      split; intros [Hin Hall]; (split; [exact Hin|]).
      * intros item Hitem. apply list_elem_of_In in Hitem.
        specialize (Hall item Hitem). unfold holds in Hall.
        now destruct (eval_predicate entry item) as [[|]|].
      * intros item Hitem. apply list_elem_of_In in Hitem.
        unfold holds. now rewrite (Hall item Hitem).
  - intros Hno. destruct (commit query entries) as [l|e] eqn:Hc; [|now exists e].
    exfalso. apply Hno. now apply (commit_returns_iff query entries l).
  - intros before entry after e -> Hbefore Hentry. split.
    + now apply commit_raises_first.
    + now apply matches_query_raises_iff.
Qed.

Lemma commit_returns_matching_witness :
  commit [("name__in", VList [VStr "lucas"; VStr "jessica"]); ("year", VInt 2015)]
    [ {[ "name" := VStr "lucas"; "year" := VInt 2015 ]};
      {[ "name" := VStr "kelly"; "year" := VInt 2015 ]};
      {[ "name" := VStr "jessica" ]} ]
  = Ok [ {[ "name" := VStr "lucas"; "year" := VInt 2015 ]} ]
  /\ commit [("name", VStr "adam"); ("tags__contains", VStr "x")]
       [ {[ "name" := VStr "kelly" ]}; {[ "name" := VStr "adam" ]}; ∅ ]
     = Raise TypeError.
Proof.
  split.
  - refine (proj1 (proj1 (commit_returns_matching _ _) _)).
    intros entry Hentry. apply list_elem_of_In in Hentry. simpl in Hentry.
    destruct Hentry as [<-|[<-|[<-|[]]]]; vm_compute; exact I.
  - refine (proj1 (proj2 (proj2 (commit_returns_matching
              [("name", VStr "adam"); ("tags__contains", VStr "x")]
              [ {[ "name" := VStr "kelly" ]}; {[ "name" := VStr "adam" ]}; ∅ ]))
              [ {[ "name" := VStr "kelly" ]} ] {[ "name" := VStr "adam" ]} [∅]
              TypeError eq_refl _ _)).
    + intros x Hx. apply list_elem_of_In in Hx. simpl in Hx.
      destruct Hx as [<-|[]]. vm_compute. exact I.
    + vm_compute. reflexivity.
Defined.

(** ** The operator table *)

(** C2: [not_contains] and [contains] are the same predicate: for every
    record, field and target both test whether the target is in the record's
    field value. *)
Theorem not_contains_is_contains :
  operator_lookup "not_contains" = operator_lookup "contains"
  /\ forall (entry : gmap string value) (field : string) (value : value),
       exists test_contains test_not_contains,
         operator_lookup "contains" = Some test_contains
         /\ operator_lookup "not_contains" = Some test_not_contains
         /\ test_not_contains entry field value = test_contains entry field value
         /\ test_contains entry field value = py_in value (entry_get entry field).
Proof.
  split; [reflexivity|].
  intros entry field value. do 2 eexists. repeat split.
Qed.

(** C7, as stated, fails: on a record without the field, [contains] tests
    membership in [None], which raises. *)
Lemma contains_missing_field_raises :
  resolve "tags__contains" = ("tags", "contains")
  /\ (∅ : gmap string value) !! "tags" = None
  /\ eval_predicate ∅ ("tags__contains", VStr "x") = Raise TypeError
  /\ ~ returns (eval_predicate ∅ ("tags__contains", VStr "x")).
Proof. repeat split. vm_compute. intros []. Qed.

(** C7 (amended): a field the record lacks reads as [None], without an
    exception.  [equals] and [not_equals] then compare [None] with the
    target and return; [in] and [not_in] test whether [None] is in the
    target, and return when the target is a list; [contains] and
    [not_contains] test membership in [None], which raises a type error. *)
Theorem missing_field_reads_None
    (entry : gmap string value) (key field operator : string) (value : value)
    (Hkey : resolve key = (field, operator))
    (Hmissing : entry !! field = None) :
  entry_get entry field = VNone
  /\ (operator = "equals" ->
      eval_predicate entry (key, value) = Ok (py_eq VNone value))
  /\ (operator = "not_equals" ->
      eval_predicate entry (key, value) = Ok (py_ne VNone value))
  /\ (operator = "in" ->
      eval_predicate entry (key, value) = py_in VNone value
      /\ forall items, value = VList items ->
           eval_predicate entry (key, value) = Ok (existsb (py_eq VNone) items))
  /\ (operator = "not_in" ->
      eval_predicate entry (key, value) = py_not_in VNone value
      /\ forall items, value = VList items ->
           eval_predicate entry (key, value) = Ok (negb (existsb (py_eq VNone) items)))
  /\ (operator = "contains" \/ operator = "not_contains" ->
      eval_predicate entry (key, value) = Raise TypeError).
Proof.
  assert (Hget : entry_get entry field = VNone).
  { unfold entry_get. now rewrite Hmissing. }
  unfold eval_predicate. simpl. rewrite Hkey.
  split; [exact Hget|].
  split; [intros ->; simpl; now rewrite Hget|].
  split; [intros ->; simpl; now rewrite Hget|].
  split; [intros ->; simpl; rewrite Hget; split; [reflexivity | now intros items ->]|].
  split; [intros ->; simpl; rewrite Hget; split; [reflexivity | now intros items ->]|].
  intros [->| ->]; simpl; now rewrite Hget.
Qed.

Lemma missing_field_reads_None_witness :
  eval_predicate {[ "name" := VStr "adam" ]} ("year__equals", VNone) = Ok true
  /\ eval_predicate {[ "name" := VStr "adam" ]} ("year__contains", VNone)
     = Raise TypeError.
Proof.
  pose proof (missing_field_reads_None {[ "name" := VStr "adam" ]}
                "year__equals" "year" "equals" VNone
                ltac:(vm_compute; reflexivity) ltac:(vm_compute; reflexivity))
    as (_ & Heq & _).
  pose proof (missing_field_reads_None {[ "name" := VStr "adam" ]}
                "year__contains" "year" "contains" VNone
                ltac:(vm_compute; reflexivity) ltac:(vm_compute; reflexivity))
    as (_ & _ & _ & _ & _ & Hcontains).
  split; [exact (Heq eq_refl) | exact (Hcontains (or_introl eq_refl))].
Defined.

(** ** [equals] against [not_equals] *)

Lemma filter_complement_partitions {A} (f : A -> bool) (l : list A) :
  partitions (List.filter (fun x => negb (f x)) l) (List.filter f l) l.
Proof.
  split.
  - intros x Hx Hx'. apply list_elem_of_In, filter_In in Hx as [_ Hx].
    apply list_elem_of_In, filter_In in Hx' as [_ Hx'].
    rewrite Hx' in Hx. discriminate.
  - induction l as [|x l IH]; simpl; [constructor|].
    destruct (f x); simpl.
    + symmetry. apply Permutation_cons_app. now symmetry.
    + now constructor.
Qed.

(** A query of one item returns the records on which its predicate holds. *)
Lemma commit_single (key field operator : string) (target : value)
    (test : gmap string value -> string -> value -> bool)
    (entries : list (gmap string value)) :
  resolve key = (field, operator) ->
  (forall entry, eval_predicate entry (key, target) = Ok (test entry field target)) ->
  commit [(key, target)] entries
  = Ok (List.filter (fun entry => test entry field target) entries).
Proof.
  intros Hkey Htest.
  assert (H : commit [(key, target)] entries
              = Ok (List.filter (all_hold [(key, target)]) entries)).
  { apply commit_returns_iff. split; [|reflexivity].
    intros entry _. simpl. rewrite Htest. simpl. now destruct (test _ _ _). }
  rewrite H. f_equal. apply filter_ext. intros entry.
  unfold all_hold, holds. simpl. rewrite Htest.
  now destruct (test entry field target).
Qed.

Lemma not_equals_equals_partition (key_ne key_eq field : string)
    (v : value) (R : list (gmap string value)) :
  resolve key_ne = (field, "not_equals") ->
  resolve key_eq = (field, "equals") ->
  exists l_ne l_eq,
    commit [(key_ne, v)] R = Ok l_ne
    /\ commit [(key_eq, v)] R = Ok l_eq
    /\ partitions l_ne l_eq R.
Proof.
  intros Hne Heq.
  exists (List.filter (fun entry => negb (py_eq (entry_get entry field) v)) R),
         (List.filter (fun entry => py_eq (entry_get entry field) v) R).
  split; [|split].
  - apply (commit_single key_ne field "not_equals" v
             (fun entry field v => negb (py_eq (entry_get entry field) v)));
      [exact Hne|].
    intros entry. unfold eval_predicate. simpl. now rewrite Hne.
  - apply (commit_single key_eq field "equals" v
             (fun entry field v => py_eq (entry_get entry field) v));
      [exact Heq|].
    intros entry. unfold eval_predicate. simpl. now rewrite Heq.
  - apply (filter_complement_partitions
             (fun entry => py_eq (entry_get entry field) v)).
Qed.

(** C8, as stated, fails: the keys [not_equals] and [equals] carry no
    operator, so each names a field compared with [equals]; a record with
    neither field is in neither result. *)
Lemma bare_operator_names_are_fields :
  resolve "not_equals" = ("not_equals", "equals")
  /\ resolve "equals" = ("equals", "equals")
  /\ commit [("not_equals", VInt 1)] [∅] = Ok []
  /\ commit [("equals", VInt 1)] [∅] = Ok []
  /\ ~ partitions ([] : list (gmap string value)) [] [∅].
Proof.
  repeat split; try (vm_compute; reflexivity).
  intros [_ Hperm]. simpl in Hperm. now apply Permutation_nil_cons in Hperm.
Qed.

(** A field that ends in an underscore takes one underscore of the
    separator: the operator is then read with the other one in front. *)
Example field_ending_in_underscore :
  resolve "a___equals" = ("a", "_equals")
  /\ commit [("a___equals", VInt 1)] [∅]
     = Raise (RuntimeError (UnknownOperator "_equals")).
Proof. split; vm_compute; reflexivity. Qed.

(** C8 (amended): for every field [f] that does not end in an underscore,
    every value [v] and every list of records [R], the results of the query
    [{f__not_equals: v}] and of the query [{f__equals: v}] on [R] are
    disjoint and together make up [R]. *)
Theorem not_equals_equals_partition_keys
    (field : string) (v : value) (R : list (gmap string value))
    (Hfield : ends_with_underscore field = false) :
  exists l_ne l_eq,
    commit [(field +:+ "__not_equals", v)] R = Ok l_ne
    /\ commit [(field +:+ "__equals", v)] R = Ok l_eq
    /\ partitions l_ne l_eq R.
Proof.
  apply (not_equals_equals_partition _ _ field).
  - now apply (resolve_with_operator field "not_equals").
  - now apply (resolve_with_operator field "equals").
Qed.

Lemma not_equals_equals_partition_keys_witness :
  exists l_ne l_eq,
    commit [("first_name__not_equals", VStr "adam")]
      [ {[ "first_name" := VStr "adam" ]}; ∅; {[ "first_name" := VStr "kelly" ]} ]
    = Ok l_ne
    /\ commit [("first_name__equals", VStr "adam")]
         [ {[ "first_name" := VStr "adam" ]}; ∅; {[ "first_name" := VStr "kelly" ]} ]
       = Ok l_eq
    /\ partitions l_ne l_eq
         [ {[ "first_name" := VStr "adam" ]}; ∅; {[ "first_name" := VStr "kelly" ]} ].
Proof.
  exact (not_equals_equals_partition_keys "first_name" (VStr "adam")
           [ {[ "first_name" := VStr "adam" ]}; ∅; {[ "first_name" := VStr "kelly" ]} ]
           eq_refl).
Defined.

(** ** Text: containment *)

Lemma prefix_append (pattern text : string) :
  String.prefix pattern text = true <-> exists post, text = pattern +:+ post.
Proof.
  revert text. induction pattern as [|a pattern IH]; intros text.
  - split; [intros _; now exists text | intros _; now destruct text].
  - destruct text as [|b text]; cbn [String.prefix].
    + split; [discriminate | intros [post H]; discriminate].
    + destruct (ascii_dec a b) as [<-|Hab].
      * rewrite IH. split; intros [post H]; exists post.
        -- now rewrite append_String, H.
        -- rewrite append_String in H. now injection H.
      * split; [discriminate|]. intros [post H].
        rewrite append_String in H. injection H as -> _. congruence.
Qed.

(** [str_contains] decides whether the pattern occurs in the text. *)
Lemma str_contains_occurs (pattern text : string) :
  str_contains pattern text = true
  <-> exists pre post, text = pre +:+ pattern +:+ post.
Proof.
  split.
  - induction text as [|c rest IH]; cbn [str_contains].
    + intros H. apply prefix_append in H as [post H]. now exists "", post.
    + intros H. apply orb_true_iff in H as [H|H].
      * apply prefix_append in H as [post H]. now exists "", post.
      * destruct (IH H) as (pre & post & ->).
        exists (String c pre), post. now rewrite append_String.
  - intros (pre & post & ->). induction pre as [|c pre IH].
    + rewrite append_empty_l.
      assert (Hp : String.prefix pattern (pattern +:+ post) = true)
        by (apply prefix_append; eauto).
      destruct (pattern +:+ post); cbn [str_contains]; [exact Hp|].
      now rewrite Hp.
    + rewrite append_String. cbn [str_contains]. rewrite IH.
      apply orb_true_r.
Qed.

(** ** Slices and items *)

Lemma slice_bound_in_range (n i : Z) : (0 <= i <= n)%Z -> slice_bound n i = i.
Proof. intros H. unfold slice_bound. destruct (Z.ltb_spec i 0); lia. Qed.

(** Within the list, [l[lo:hi]] drops [lo] items and takes [hi - lo]. *)
Lemma py_slice_in_range {A} (l : list A) (lo hi : nat) :
  (lo <= hi <= length l)%nat ->
  py_slice l (Z.of_nat lo) (Z.of_nat hi) = take (hi - lo) (drop lo l).
Proof.
  intros H. unfold py_slice.
  rewrite !slice_bound_in_range by lia.
  rewrite Nat2Z.id. f_equal. lia.
Qed.

Lemma py_slice_lookup {A} (l : list A) (lo hi k : nat) :
  (lo <= hi <= length l)%nat -> (k < hi - lo)%nat ->
  py_slice l (Z.of_nat lo) (Z.of_nat hi) !! k = l !! (lo + k)%nat.
Proof.
  intros H Hk. rewrite py_slice_in_range by exact H.
  rewrite lookup_take_lt by exact Hk. apply lookup_drop.
Qed.

(** [l[start:]], written [l[start:len(l)]]. *)
Lemma py_slice_to_end {A} (l : list A) (start : nat) :
  (start <= length l)%nat ->
  py_slice l (Z.of_nat start) (Z.of_nat (length l)) = drop start l.
Proof.
  intros H. rewrite py_slice_in_range by lia.
  apply take_ge. rewrite length_drop. lia.
Qed.

Lemma py_getitem_in_range {A} (l : list A) (k : nat) (x : A) :
  l !! k = Some x -> py_getitem l (Z.of_nat k) = Ok x.
Proof.
  intros H. pose proof (lookup_lt_Some _ _ _ H) as Hlt.
  unfold py_getitem.
  destruct (Z.ltb_spec (Z.of_nat k) 0) as [?|_]; [lia|].
  destruct (Z.leb_spec 0 (Z.of_nat k)) as [_|?]; [|lia].
  destruct (Z.ltb_spec (Z.of_nat k) (Z.of_nat (length l))) as [_|?]; [|lia].
  simpl. now rewrite Nat2Z.id, H.
Qed.

(** ** The scans of [find_by_content] *)

Lemma first_containing_first_match (pattern : string) (pieces : list string)
    (i : Z) (k : nat) :
  first_match_from pattern pieces 0 k ->
  first_containing pattern pieces i = Some (i + Z.of_nat k)%Z.
Proof.
  revert i k. induction pieces as [|piece rest IH]; intros i k (_ & Hat & Hbefore).
  - destruct Hat as (p & Hp & _). discriminate.
  - destruct k as [|k]; cbn [first_containing].
    + destruct Hat as (p & [= ->] & ->). f_equal. lia.
    + rewrite (Hbefore O piece) by (try reflexivity; lia).
      rewrite (IH (i + 1)%Z k); [f_equal; lia|].
      split; [lia|]. split; [exact Hat|].
      intros j p Hj Hp. apply (Hbefore (S j) p); [lia | exact Hp].
Qed.

Lemma first_containing_none (pattern : string) (pieces : list string) (i : Z) :
  (forall piece, piece ∈ pieces -> str_contains pattern piece = false) ->
  first_containing pattern pieces i = None.
Proof.
  revert i. induction pieces as [|piece rest IH]; intros i H; [reflexivity|].
  cbn [first_containing]. rewrite (H piece) by left.
  apply IH. intros p Hp. apply H. now right.
Qed.

Lemma first_match_from_drop (pattern : string) (pieces : list string)
    (start idx : nat) :
  first_match_from pattern pieces start idx ->
  first_match_from pattern (drop start pieces) 0 (idx - start).
Proof.
  intros (Hle & (p & Hp & Hc) & Hbefore). split; [lia|]. split.
  - exists p. rewrite lookup_drop. now replace (start + (idx - start))%nat with idx by lia.
  - intros j q Hj Hq. rewrite lookup_drop in Hq.
    apply (Hbefore (start + j)%nat q); [lia | exact Hq].
Qed.

Lemma first_match_in_range (pattern : string) (pieces : list string)
    (start idx : nat) :
  first_match_from pattern pieces start idx -> (idx < length pieces)%nat.
Proof. intros (_ & (p & Hp & _) & _). now apply lookup_lt_Some in Hp. Qed.

Lemma end_pattern_truthy_Some (p : string) :
  p <> "" -> end_pattern_truthy (Some p) = true.
Proof.
  intros H. unfold end_pattern_truthy, str_truthy.
  apply negb_true_iff. now apply String.eqb_neq.
Qed.

Lemma count_truthy_Some (c : Z) : c <> 0%Z -> count_truthy (Some c) = true.
Proof. intros H. simpl. apply negb_true_iff. now apply Z.eqb_neq. Qed.

(** ** ContentFinder.find_by_content *)

(** C5, as stated, fails for the count [0], which is given and yet is not
    taken for a count: one piece is returned, not the empty slice. *)
Lemma count_zero_returns_a_piece :
  exists self,
    ContentFinder_init ("a" +:+ LF +:+ "b" +:+ LF +:+ "c" +:+ LF +:+ "d" +:+ LF) LF
    = Ok self
    /\ first_match_from "b" (split self) 0 1
    /\ find_by_content self "b" 0 (Some 0) None = Ok (Piece "b")
    /\ find_by_content self "b" 0 (Some 0) None
       <> Ok (Pieces (py_slice (split self) (1 + 0) (1 + 0))).
Proof.
  eexists. split; [vm_compute; reflexivity|].
  split; [|split; [vm_compute; reflexivity | vm_compute; discriminate]].
  split; [lia|]. split.
  - exists "b". split; reflexivity.
  - intros j piece Hj. assert (j = O) as -> by lia.
    intros [= <-]. reflexivity.
Qed.

(** C5 (amended): when some piece contains the pattern, for every offset and
    every given count other than 0, [find_by_content] returns the slice of
    the pieces from index anchor+offset up to, not including, index
    anchor+count, the anchor being the index of the first piece that
    contains the pattern; so [ContentFinder("a\nb\nc\nd\n")] asked for
    ["b"] with count 3 gives [["b"; "c"; "d"]]. *)
Theorem find_by_content_count :
  (forall (self : ContentFinder) (pattern : string) (offset count : Z)
          (end_pattern : option string) (anchor : nat),
      first_match_from pattern (split self) 0 anchor ->
      count <> 0 ->
      find_by_content self pattern offset (Some count) end_pattern
      = Ok (Pieces (py_slice (split self)
                      (Z.of_nat anchor + offset) (Z.of_nat anchor + count))))
  /\ (self ← ContentFinder_init
               ("a" +:+ LF +:+ "b" +:+ LF +:+ "c" +:+ LF +:+ "d" +:+ LF) LF;
      find_by_content self "b" 0 (Some 3) None)
     = Ok (Pieces ["b"; "c"; "d"]).
Proof.
  split; [|vm_compute; reflexivity].
  intros self pattern offset count end_pattern anchor Hanchor Hcount.
  unfold find_by_content.
  rewrite (count_truthy_Some count Hcount).
  rewrite (first_containing_first_match pattern (split self) 0 anchor Hanchor).
  reflexivity.
Qed.

Lemma find_by_content_count_witness :
  find_by_content {| data := "x y z"; split := ["x"; "y"; "z"] |} "y" (-1) (Some 2) None
  = Ok (Pieces ["x"; "y"; "z"]).
Proof.
  refine (proj1 find_by_content_count
            {| data := "x y z"; split := ["x"; "y"; "z"] |} "y" (-1) 2 None 1%nat _ _).
  - split; [lia|]. split.
    + exists "y". split; reflexivity.
    + intros j piece Hj. assert (j = O) as -> by lia.
      intros [= <-]. reflexivity.
  - discriminate.
Defined.

(** The branch of the end pattern. *)
Lemma end_pattern_branch (self : ContentFinder) (pattern : string) (offset : Z)
    (count : option Z) (end_pattern : string) (anchor end_idx : nat) :
  count_truthy count = false ->
  first_match_from pattern (split self) 0 anchor ->
  end_pattern <> "" ->
  first_match_from end_pattern (split self) anchor end_idx ->
  find_by_content self pattern offset count (Some end_pattern)
  = Ok (Pieces (py_slice (split self)
                  (Z.of_nat anchor + offset) (Z.of_nat end_idx))).
Proof.
  intros Hcount Hanchor Hne Hend.
  unfold find_by_content. rewrite Hcount.
  rewrite (end_pattern_truthy_Some end_pattern Hne).
  rewrite (first_containing_first_match pattern (split self) 0 anchor Hanchor).
  rewrite Z.add_0_l. cbn [read_local]. rewrite bind_Ok.
  pose proof (first_match_in_range _ _ _ _ Hanchor) as Hlt.
  rewrite py_slice_to_end by lia. cbn [default]. unfold id.
  rewrite (first_containing_first_match end_pattern (drop anchor (split self))
             (Z.of_nat anchor) (end_idx - anchor)
             (first_match_from_drop _ _ _ _ Hend)).
  destruct Hend as (Hle & _).
  replace (Z.of_nat anchor + Z.of_nat (end_idx - anchor))%Z
    with (Z.of_nat end_idx) by lia.
  reflexivity.
Qed.

(** The branch without count and end pattern. *)
Lemma single_piece_branch (self : ContentFinder) (pattern : string) (offset : Z)
    (count : option Z) (end_pattern : option string) (anchor : nat) :
  count_truthy count = false ->
  end_pattern_truthy end_pattern = false ->
  first_match_from pattern (split self) 0 anchor ->
  find_by_content self pattern offset count end_pattern
  = (piece ← py_getitem (split self) (Z.of_nat anchor + offset); Ok (Piece piece)).
Proof.
  intros Hcount Hend Hanchor. unfold find_by_content.
  rewrite Hcount, Hend.
  rewrite (first_containing_first_match pattern (split self) 0 anchor Hanchor).
  reflexivity.
Qed.

(** C6, as stated, fails for the empty end pattern, which is given, is
    contained in every piece, and yet is not taken for an end pattern: one
    piece is returned, not the slice up to the anchor. *)
Lemma empty_end_pattern_returns_a_piece :
  exists self,
    ContentFinder_init
      ("x" +:+ LF +:+ "START" +:+ LF +:+ "1" +:+ LF +:+ "2" +:+ LF +:+ "END" +:+ LF) LF
    = Ok self
    /\ first_match_from "START" (split self) 0 1
    /\ first_match_from "" (split self) 1 1
    /\ find_by_content self "START" 1 None (Some "") = Ok (Piece "1")
    /\ find_by_content self "START" 1 None (Some "")
       <> Ok (Pieces (py_slice (split self) (1 + 1) 1)).
Proof.
  eexists. split; [vm_compute; reflexivity|].
  split; [|split; [|split; [vm_compute; reflexivity | vm_compute; discriminate]]].
  - split; [lia|]. split.
    + exists "START". split; reflexivity.
    + intros j piece Hj. assert (j = O) as -> by lia.
      intros [= <-]. reflexivity.
  - split; [lia|]. split.
    + exists "START". split; reflexivity.
    + intros j piece Hj. lia.
Qed.

(** C6 (amended): when some piece contains the pattern, no count is given,
    a non-empty end pattern is given and some piece from the anchor on
    contains it, [find_by_content] returns the slice of the pieces from
    index anchor+offset up to, not including, [end_idx], the anchor being
    the index of the first piece that contains the pattern and [end_idx] the
    index of the first piece from the anchor on that contains the end
    pattern; so [ContentFinder("x\nSTART\n1\n2\nEND\n")] asked for
    ["START"] with offset 1 and end pattern ["END"] gives [["1"; "2"]]. *)
Theorem find_by_content_end_pattern :
  (forall (self : ContentFinder) (pattern : string) (offset : Z)
          (end_pattern : string) (anchor end_idx : nat),
      first_match_from pattern (split self) 0 anchor ->
      end_pattern <> "" ->
      first_match_from end_pattern (split self) anchor end_idx ->
      find_by_content self pattern offset None (Some end_pattern)
      = Ok (Pieces (py_slice (split self)
                      (Z.of_nat anchor + offset) (Z.of_nat end_idx))))
  /\ (self ← ContentFinder_init
               ("x" +:+ LF +:+ "START" +:+ LF +:+ "1" +:+ LF +:+ "2" +:+ LF
                +:+ "END" +:+ LF) LF;
      find_by_content self "START" 1 None (Some "END"))
     = Ok (Pieces ["1"; "2"]).
Proof.
  split; [|vm_compute; reflexivity].
  intros self pattern offset end_pattern anchor end_idx Hanchor Hne Hend.
  now apply end_pattern_branch.
Qed.

Lemma find_by_content_end_pattern_witness :
  find_by_content {| data := "a b c d"; split := ["a"; "b"; "c"; "d"] |}
    "a" 0 None (Some "c")
  = Ok (Pieces ["a"; "b"]).
Proof.
  refine (proj1 find_by_content_end_pattern
            {| data := "a b c d"; split := ["a"; "b"; "c"; "d"] |}
            "a" 0 "c" 0%nat 2%nat _ _ _).
  - split; [lia|]. split.
    + exists "a". split; reflexivity.
    + intros j piece Hj. lia.
  - discriminate.
  - split; [lia|]. split.
    + exists "c". split; reflexivity.
    + intros j piece Hj.
      assert (j = 0 \/ j = 1)%nat as [-> | ->] by lia; intros [= <-]; reflexivity.
Defined.

(** C9: when no piece contains the pattern, [start_at] is never assigned
    and [find_by_content] fails with an unbound local variable, whatever the
    offset, the count and the end pattern are. *)
Theorem find_by_content_no_anchor
    (self : ContentFinder) (pattern : string) (offset : Z)
    (count : option Z) (end_pattern : option string)
    (Hnone : forall piece, piece ∈ split self -> str_contains pattern piece = false) :
  first_containing pattern (split self) 0 = None
  /\ find_by_content self pattern offset count end_pattern
     = Raise (UnboundLocalError "start_at").
Proof.
  pose proof (first_containing_none pattern (split self) 0 Hnone) as Hscan.
  split; [exact Hscan|].
  unfold find_by_content. rewrite Hscan.
  destruct (count_truthy count); [reflexivity|].
  destruct (end_pattern_truthy end_pattern); reflexivity.
Qed.

Lemma find_by_content_no_anchor_witness :
  find_by_content {| data := "a b"; split := ["a"; "b"] |} "z" 1 (Some 2) (Some "b")
  = Raise (UnboundLocalError "start_at").
Proof.
  refine (proj2 (find_by_content_no_anchor
                   {| data := "a b"; split := ["a"; "b"] |} "z" 1 (Some 2) (Some "b") _)).
  intros piece Hpiece. apply list_elem_of_In in Hpiece. simpl in Hpiece.
  destruct Hpiece as [<-|[<-|[]]]; reflexivity.
Defined.

(** C10, as stated, fails: with the count [0] the call does behave as with
    no count, but that is not always to return the piece or the end-pattern
    slice: an index anchor+offset outside the list raises an index error,
    the empty end pattern is not taken for an end pattern and one piece is
    returned, not the slice, and an end pattern no piece contains leaves
    [end_idx] unassigned. *)
Lemma count_zero_may_raise :
  first_match_from "c" ["a"; "b"; "c"] 0 2
  /\ find_by_content {| data := "a b c"; split := ["a"; "b"; "c"] |}
       "c" 1 (Some 0) None
     = Raise IndexError
  /\ find_by_content {| data := "a b c"; split := ["a"; "b"; "c"] |}
       "c" (-1) (Some 0) (Some "")
     = Ok (Piece "b")
  /\ py_slice ["a"; "b"; "c"] (2 + -1) 2 = ["b"]
  /\ find_by_content {| data := "a b c"; split := ["a"; "b"; "c"] |}
       "c" 0 (Some 0) (Some "z")
     = Raise (UnboundLocalError "end_idx").
Proof.
  split; [|repeat split].
  split; [lia|]. split.
  - exists "c". split; reflexivity.
  - intros j piece Hj.
    assert (j = 0 \/ j = 1)%nat as [-> | ->] by lia; intros [= <-]; reflexivity.
Qed.

(** C10 (amended): the count [0] is false, so it is not taken for a count
    and the call behaves as with no count, on every input.  With the pattern
    found and no end pattern, or the empty one, the call reads the piece at
    index anchor+offset as Python reads an index: it returns that one piece
    when the index is in the list, and never a slice.  With a non-empty end
    pattern that some piece from the anchor on contains, it returns the
    slice up to the first such piece. *)
Theorem count_zero_is_count_absent
    (self : ContentFinder) (pattern : string) (offset : Z)
    (end_pattern : option string) :
  find_by_content self pattern offset (Some 0) end_pattern
  = find_by_content self pattern offset None end_pattern
  /\ forall anchor : nat,
       first_match_from pattern (split self) 0 anchor ->
       (end_pattern_truthy end_pattern = false ->
        find_by_content self pattern offset (Some 0) end_pattern
        = (piece ← py_getitem (split self) (Z.of_nat anchor + offset);
           Ok (Piece piece))
        /\ (forall (k : nat) (piece : string),
              (Z.of_nat anchor + offset)%Z = Z.of_nat k ->
              split self !! k = Some piece ->
              find_by_content self pattern offset (Some 0) end_pattern
              = Ok (Piece piece))
        /\ (forall l, find_by_content self pattern offset (Some 0) end_pattern
                      <> Ok (Pieces l)))
       /\ (forall (p : string) (end_idx : nat),
             end_pattern = Some p -> p <> "" ->
             first_match_from p (split self) anchor end_idx ->
             find_by_content self pattern offset (Some 0) end_pattern
             = Ok (Pieces (py_slice (split self)
                             (Z.of_nat anchor + offset) (Z.of_nat end_idx)))).
Proof.
  split; [reflexivity|].
  intros anchor Hanchor. split.
  - intros Hend.
    pose proof (single_piece_branch self pattern offset (Some 0) end_pattern
                  anchor eq_refl Hend Hanchor) as Hone.
    split; [exact Hone|]. split.
    + intros k piece Hk Hpiece. rewrite Hone, Hk.
      now rewrite (py_getitem_in_range _ _ _ Hpiece).
    + intros l. rewrite Hone.
      destruct (py_getitem (split self) (Z.of_nat anchor + offset)); discriminate.
  - intros p end_idx -> Hp Hstop. now apply end_pattern_branch.
Qed.

Lemma count_zero_is_count_absent_witness :
  find_by_content {| data := "a b c"; split := ["a"; "b"; "c"] |} "b" 1 (Some 0) None
  = Ok (Piece "c").
Proof.
  refine (proj1 (proj2 (proj1 (proj2 (count_zero_is_count_absent
            {| data := "a b c"; split := ["a"; "b"; "c"] |} "b" 1 None) 1%nat _) _))
            2%nat "c" _ _); try reflexivity.
  split; [lia|]. split.
  - exists "b". split; reflexivity.
  - intros j piece Hj. assert (j = O) as -> by lia.
    intros [= <-]. reflexivity.
Defined.

(** ** CrawlerRepository *)

Lemma required_subset_keys (required : gset string) (query : list (string * value)) :
  required ⊆ list_to_set (map fst query)
  <-> forall k, k ∈ required -> exists v, (k, v) ∈ query.
Proof.
  split.
  - intros Hsub k Hk. apply Hsub in Hk.
    apply elem_of_list_to_set, list_elem_of_In, in_map_iff in Hk
      as ([k' v] & <- & Hin).
    exists v. now apply list_elem_of_In.
  - intros Hall k Hk. destruct (Hall k Hk) as [v Hv].
    apply elem_of_list_to_set, list_elem_of_In, in_map_iff.
    exists (k, v). split; [reflexivity | now apply list_elem_of_In].
Qed.

Lemma elem_of_new_query (required : gset string) (query : list (string * value))
    (item : string * value) :
  item ∈ new_query required query <-> item ∈ query /\ fst item ∉ required.
Proof.
  unfold new_query. rewrite !list_elem_of_In, filter_In.
  now rewrite bool_decide_eq_true.
Qed.

Lemma OnlineFilter_init_ok (query : list (string * value)) :
  (forall item, item ∈ query -> fst item <> "self") ->
  OnlineFilter_init query = Ok query.
Proof.
  intros Hno. unfold OnlineFilter_init.
  destruct (existsb (String.eqb "self") (map fst query)) eqn:He; [|reflexivity].
  apply existsb_exists in He as (k & Hk & Heq).
  apply String.eqb_eq in Heq as <-.
  apply in_map_iff in Hk as (item & Hfst & Hitem).
  exfalso. apply (Hno item); [now apply list_elem_of_In | exact Hfst].
Qed.

Lemma OnlineFilter_init_self (query : list (string * value)) :
  (exists item, item ∈ query /\ fst item = "self") ->
  OnlineFilter_init query = Raise TypeError.
Proof.
  intros (item & Hitem & Hfst). unfold OnlineFilter_init.
  replace (existsb (String.eqb "self") (map fst query)) with true; [reflexivity|].
  symmetry. apply existsb_exists. exists "self". split; [|reflexivity].
  apply in_map_iff. exists item. split; [exact Hfst | now apply list_elem_of_In].
Qed.

Lemma OnlineFilter_init_returns (query online_filter : list (string * value)) :
  OnlineFilter_init query = Ok online_filter -> online_filter = query.
Proof.
  unfold OnlineFilter_init.
  destruct (existsb (String.eqb "self") (map fst query)); congruence.
Qed.

(** C3, as stated, fails: a key of the query named [self] that is not
    required cannot be passed to the constructor of the filter, so [all]
    raises a type error, after the hook has run, where the filter of the
    remaining items applied to the fetched records returns. *)
Lemma all_self_key_raises :
  all ∅ [("self", VInt 1)] (fun calls : nat => (Ok [∅], S calls)) O
  = (Raise TypeError, S O)
  /\ commit (new_query ∅ [("self", VInt 1)]) [∅] = Ok []
  /\ all ∅ [("self", VInt 1)] (fun calls : nat => (Ok [∅], S calls)) O
     <> (commit (new_query ∅ [("self", VInt 1)]) [∅], S O).
Proof.
  split; [vm_compute; reflexivity|].
  split; [vm_compute; reflexivity|].
  vm_compute. discriminate.
Qed.

(** C3 (amended): when some required querying field is not a key of the
    query, [all] fails with the error naming the required fields, and the
    fetch hook has not run; otherwise [all] runs the fetch hook and, when no
    remaining key is named [self], returns what the filter made of the query
    items whose key is not required returns on the fetched records. *)
Theorem all_checks_then_filters {World : Type}
    (required : gset string) (query : list (string * value))
    (fetch_all : World -> result (list (gmap string value)) * World)
    (w : World) :
  (~ (forall k, k ∈ required -> exists v, (k, v) ∈ query) ->
   all required query fetch_all w
   = (Raise (RuntimeError (MustBeFilteredBy required)), w))
  /\ ((forall k, k ∈ required -> exists v, (k, v) ∈ query) ->
      (forall e w',
          fetch_all w = (Raise e, w') ->
          all required query fetch_all w = (Raise e, w'))
      /\ ((forall item, item ∈ new_query required query -> fst item <> "self") ->
          forall entries w',
            fetch_all w = (Ok entries, w') ->
            all required query fetch_all w
            = (commit (new_query required query) entries, w')))
  /\ (forall item,
        item ∈ new_query required query <-> item ∈ query /\ fst item ∉ required)
  /\ sublist (new_query required query) query.
Proof.
  split; [|split; [|split]].
  - intros Hmissing. unfold all, _assert_valid_query.
    destruct (decide (required ⊆ list_to_set (map fst query))) as [Hsub|_];
      [|reflexivity].
    exfalso. apply Hmissing. exact (proj1 (required_subset_keys _ _) Hsub).
  - intros Hpresent. apply (proj2 (required_subset_keys _ _)) in Hpresent.
    unfold all, _assert_valid_query.
    destruct (decide (required ⊆ list_to_set (map fst query))) as [_|Hno];
      [|contradiction].
    split.
    + intros e w' ->. reflexivity.
    + intros Hself entries w' ->.
      now rewrite bind_Ok, (OnlineFilter_init_ok _ Hself), bind_Ok.
  - apply elem_of_new_query.
  - apply filter_sublist.
Qed.

Lemma all_checks_then_filters_witness :
  all {[ "year" ]} [("name", VStr "adam")]
    (fun calls : nat => (Ok [ {[ "name" := VStr "adam" ]} ], S calls)) O
  = (Raise (RuntimeError (MustBeFilteredBy {[ "year" ]})), O)
  /\ all {[ "year" ]} [("year", VInt 2015); ("name", VStr "adam")]
       (fun calls : nat =>
          (Ok [ {[ "name" := VStr "adam" ]}; {[ "name" := VStr "kelly" ]} ], S calls)) O
     = (Ok [ {[ "name" := VStr "adam" ]} ], S O).
Proof.
  split.
  - refine (proj1 (all_checks_then_filters {[ "year" ]} [("name", VStr "adam")]
                     (fun calls : nat => (Ok [ {[ "name" := VStr "adam" ]} ], S calls)) O) _).
    intros Hall. destruct (Hall "year") as [v Hv]; [now apply elem_of_singleton|].
    apply list_elem_of_In in Hv. simpl in Hv. destruct Hv as [Hv|[]]. discriminate.
  - refine (proj2 (proj1 (proj2 (all_checks_then_filters {[ "year" ]}
                     [("year", VInt 2015); ("name", VStr "adam")]
                     (fun calls : nat =>
                        (Ok [ {[ "name" := VStr "adam" ]}; {[ "name" := VStr "kelly" ]} ],
                         S calls)) O)) _) _ _ _ eq_refl).
    + intros k Hk. apply elem_of_singleton in Hk as ->.
      exists (VInt 2015). left.
    + intros item Hitem. apply elem_of_new_query in Hitem as [Hitem _].
      apply list_elem_of_In in Hitem. simpl in Hitem.
      destruct Hitem as [<-|[<-|[]]]; discriminate.
Defined.




(** * Further properties of the code *)

(** ** OnlineFilter.commit *)

Lemma filter_true {A} (f : A -> bool) (l : list A) :
  (forall x, x ∈ l -> f x = true) -> List.filter f l = l.
Proof.
  induction l as [|x l IH]; intros H; simpl; [reflexivity|].
  rewrite (H x) by left. f_equal. apply IH. intros y Hy. apply H. now right.
Qed.

Lemma filter_false {A} (f : A -> bool) (l : list A) :
  (forall x, x ∈ l -> f x = false) -> List.filter f l = [].
Proof.
  induction l as [|x l IH]; intros H; simpl; [reflexivity|].
  rewrite (H x) by left. apply IH. intros y Hy. apply H. now right.
Qed.

Lemma commit_no_predicates (entries : list (gmap string value)) :
  commit [] entries = Ok entries.
Proof.
  apply commit_returns_iff. split.
  - intros entry _. exact I.
  - symmetry. now apply filter_true.
Qed.

(** X1: the empty query keeps every record: [commit] returns its input, and
    a query returns its whole input exactly when every predicate holds on
    every record. *)
Theorem commit_empty_query
    (query : list (string * value)) (entries : list (gmap string value)) :
  commit [] entries = Ok entries
  /\ (commit query entries = Ok entries <->
      forall entry item, entry ∈ entries -> item ∈ query ->
        eval_predicate entry item = Ok true).
Proof.
  split; [apply commit_no_predicates|]. split.
  - intros Hc entry item Hentry Hitem.
    apply commit_returns_iff in Hc as [_ Hfilter].
    assert (Hall : all_hold query entry = true).
    { apply list_elem_of_In in Hentry. rewrite Hfilter in Hentry.
      now apply filter_In in Hentry as [_ Hentry]. }
    unfold all_hold in Hall. rewrite forallb_forall in Hall.
    apply list_elem_of_In in Hitem. specialize (Hall item Hitem).
    unfold holds in Hall. now destruct (eval_predicate entry item) as [[|]|].
  - intros Hall.
    assert (Hhold : forall entry, entry ∈ entries -> all_hold query entry = true).
    { intros entry Hentry. unfold all_hold. apply forallb_forall.
      intros item Hitem. unfold holds.
      now rewrite (Hall entry item Hentry) by now apply list_elem_of_In. }
    apply commit_returns_iff. split.
    + intros entry Hentry. apply matches_query_returns.
      intros item Hitem. now rewrite (Hall entry item Hentry Hitem).
    + symmetry. now apply filter_true.
Qed.

(** X2: an operator the table does not have is reported only when a record
    reaches it: with such an operator in the first key, [commit] returns the
    empty list on no records and raises the error naming that operator on
    any other list. *)
Theorem unknown_operator_needs_a_record
    (key field operator : string) (v : value) (rest : list (string * value))
    (Hkey : resolve key = (field, operator))
    (Hunknown : operator_lookup operator = None) :
  commit ((key, v) :: rest) [] = Ok []
  /\ forall entry entries,
       commit ((key, v) :: rest) (entry :: entries)
       = Raise (RuntimeError (UnknownOperator operator)).
Proof.
  split; [reflexivity|].
  intros entry entries. rewrite commit_cons.
  cbn [matches_query]. unfold eval_predicate. cbn [fst snd].
  now rewrite Hkey, Hunknown.
Qed.

Lemma unknown_operator_needs_a_record_witness :
  commit [("year__gt", VInt 2000); ("name", VStr "adam")] [] = Ok []
  /\ commit [("year__gt", VInt 2000); ("name", VStr "adam")]
       [ {[ "year" := VInt 2015 ]} ]
     = Raise (RuntimeError (UnknownOperator "gt")).
Proof.
  destruct (unknown_operator_needs_a_record "year__gt" "year" "gt" (VInt 2000)
              [("name", VStr "adam")] eq_refl eq_refl) as [Hnone Hsome].
  split; [exact Hnone | exact (Hsome {[ "year" := VInt 2015 ]} [])].
Defined.

(** X3: the scan of the query stops at the first predicate that does not
    hold: when the first predicate is false on every record, [commit]
    returns the empty list whatever the rest of the query is, unknown
    operators included. *)
Theorem first_false_hides_the_rest
    (item : string * value) (rest : list (string * value))
    (entries : list (gmap string value))
    (Hfalse : forall entry, entry ∈ entries -> eval_predicate entry item = Ok false) :
  commit (item :: rest) entries = Ok [].
Proof.
  apply commit_returns_iff. split.
  - intros entry Hentry. cbn [matches_query]. now rewrite (Hfalse entry Hentry).
  - symmetry. apply filter_false. intros entry Hentry.
    unfold all_hold. cbn [forallb]. unfold holds.
    now rewrite (Hfalse entry Hentry).
Qed.

Lemma first_false_hides_the_rest_witness :
  commit [("name", VStr "adam"); ("year__gt", VInt 2000)]
    [ {[ "name" := VStr "kelly" ]}; ∅ ]
  = Ok [].
Proof.
  refine (first_false_hides_the_rest ("name", VStr "adam") [("year__gt", VInt 2000)]
            [ {[ "name" := VStr "kelly" ]}; ∅ ] _).
  intros entry Hentry. apply list_elem_of_In in Hentry. simpl in Hentry.
  destruct Hentry as [<-|[<-|[]]]; vm_compute; reflexivity.
Defined.

Lemma all_hold_permutation (query query' : list (string * value))
    (entry : gmap string value) :
  Permutation query query' -> all_hold query entry = all_hold query' entry.
Proof.
  intros Hperm. unfold all_hold.
  destruct (forallb (holds entry) query') eqn:H'.
  - rewrite forallb_forall in H' |- *. intros item Hitem.
    apply H'. now apply (Permutation_in _ Hperm).
  - destruct (forallb (holds entry) query) eqn:H; [|reflexivity].
    rewrite <- H'. symmetry. rewrite forallb_forall in H |- *.
    intros item Hitem. apply H.
    now apply (Permutation_in _ (Permutation_sym Hperm)).
Qed.

(** X4: when every predicate of the query can be evaluated on every record,
    the order of the items of the query does not change what [commit]
    returns. *)
Theorem commit_query_order
    (query query' : list (string * value)) (entries : list (gmap string value))
    (Hperm : Permutation query query')
    (Heval : forall entry item,
        entry ∈ entries -> item ∈ query -> returns (eval_predicate entry item)) :
  commit query entries = commit query' entries
  /\ commit query entries = Ok (List.filter (all_hold query) entries).
Proof.
  assert (H : commit query entries = Ok (List.filter (all_hold query) entries)).
  { apply commit_returns_iff. split; [|reflexivity].
    intros entry Hentry. apply matches_query_returns. eauto. }
  split; [|exact H]. rewrite H. symmetry.
  apply commit_returns_iff. split.
  - intros entry Hentry. apply matches_query_returns.
    intros item Hitem. apply (Heval entry item Hentry).
    apply list_elem_of_In. apply list_elem_of_In in Hitem.
    now apply (Permutation_in _ (Permutation_sym Hperm)).
  - apply filter_ext. intros entry. now apply all_hold_permutation.
Qed.

Lemma commit_query_order_witness :
  commit [("name__in", VList [VStr "adam"; VStr "kelly"]); ("year", VInt 2015)]
    [ {[ "name" := VStr "adam"; "year" := VInt 2015 ]}; {[ "name" := VStr "kelly" ]} ]
  = commit [("year", VInt 2015); ("name__in", VList [VStr "adam"; VStr "kelly"])]
      [ {[ "name" := VStr "adam"; "year" := VInt 2015 ]}; {[ "name" := VStr "kelly" ]} ].
Proof.
  refine (proj1 (commit_query_order _ _ _ _ _)).
  - apply perm_swap.
  - intros entry item Hentry Hitem.
    apply list_elem_of_In in Hentry. apply list_elem_of_In in Hitem.
    simpl in Hentry, Hitem.
    destruct Hentry as [<-|[<-|[]]]; destruct Hitem as [<-|[<-|[]]];
      vm_compute; exact I.
Defined.

(** X5: [commit] works record by record: on two lists put end to end it
    returns the two results put end to end, and raises what the first of the
    two runs to raise raises. *)
Theorem commit_app
    (query : list (string * value)) (entries entries' : list (gmap string value)) :
  commit query (entries ++ entries')%list
  = (l ← commit query entries; l' ← commit query entries'; Ok (l ++ l')%list).
Proof.
  induction entries as [|entry rest IH].
  - cbn [app]. change (commit query []) with (Ok ([] : list (gmap string value))).
    rewrite bind_Ok. now destruct (commit query entries').
  - cbn [app]. rewrite !commit_cons.
    destruct (matches_query query entry) as [b|e]; [|reflexivity].
    rewrite !bind_Ok, IH.
    destruct (commit query rest) as [l|e]; [|reflexivity].
    rewrite !bind_Ok.
    destruct (commit query entries') as [l'|e]; [|reflexivity].
    rewrite !bind_Ok. now destruct b.
Qed.

(** X6: filtering twice changes nothing: [commit] on its own result returns
    that result. *)
Theorem commit_idempotent
    (query : list (string * value)) (entries l : list (gmap string value))
    (Hl : commit query entries = Ok l) :
  commit query l = Ok l.
Proof.
  apply commit_returns_iff in Hl as [Hret ->].
  apply commit_returns_iff. split.
  - intros entry Hentry. apply Hret.
    apply list_elem_of_In in Hentry. apply filter_In in Hentry as [Hentry _].
    now apply list_elem_of_In.
  - symmetry. apply filter_true. intros entry Hentry.
    apply list_elem_of_In in Hentry. now apply filter_In in Hentry as [_ Hentry].
Qed.

Lemma commit_idempotent_witness :
  commit [("name__not_equals", VStr "adam")] [ {[ "name" := VStr "kelly" ]}; ∅ ]
  = Ok [ {[ "name" := VStr "kelly" ]}; ∅ ].
Proof.
  refine (commit_idempotent [("name__not_equals", VStr "adam")]
            [ {[ "name" := VStr "adam" ]}; {[ "name" := VStr "kelly" ]}; ∅ ] _ _).
  vm_compute. reflexivity.
Defined.

(** X7: for every field that does not end in an underscore and every list
    target, the results of [{f__not_in: target}] and of [{f__in: target}]
    are disjoint and together make up the records. *)
Theorem not_in_in_partition
    (field : string) (items : list value) (R : list (gmap string value))
    (Hfield : ends_with_underscore field = false) :
  exists l_not_in l_in,
    commit [(field +:+ "__not_in", VList items)] R = Ok l_not_in
    /\ commit [(field +:+ "__in", VList items)] R = Ok l_in
    /\ partitions l_not_in l_in R
    /\ forall entry, entry ∈ l_in <->
         entry ∈ R /\ existsb (py_eq (entry_get entry field)) items = true.
Proof.
  assert (Hnot : resolve (field +:+ "__not_in") = (field, "not_in"))
    by exact (resolve_with_operator field "not_in" Hfield eq_refl).
  assert (Hin : resolve (field +:+ "__in") = (field, "in"))
    by exact (resolve_with_operator field "in" Hfield eq_refl).
  exists (List.filter
            (fun entry => negb (existsb (py_eq (entry_get entry field)) items)) R),
         (List.filter
            (fun entry => existsb (py_eq (entry_get entry field)) items) R).
  split; [|split; [|split]].
  - apply (commit_single _ field "not_in" (VList items)
             (fun entry field target =>
                negb (existsb (py_eq (entry_get entry field)) items)));
      [exact Hnot|].
    intros entry. unfold eval_predicate. cbn [fst snd]. now rewrite Hnot.
  - apply (commit_single _ field "in" (VList items)
             (fun entry field target =>
                existsb (py_eq (entry_get entry field)) items));
      [exact Hin|].
    intros entry. unfold eval_predicate. cbn [fst snd]. now rewrite Hin.
  - apply (filter_complement_partitions
             (fun entry => existsb (py_eq (entry_get entry field)) items)).
  - intros entry. now rewrite !list_elem_of_In, filter_In.
Qed.

Lemma not_in_in_partition_witness :
  exists l_not_in l_in,
    commit [("id__not_in", VList [VInt 1; VInt 2])]
      [ {[ "id" := VInt 1 ]}; {[ "id" := VInt 3 ]}; ∅ ] = Ok l_not_in
    /\ commit [("id__in", VList [VInt 1; VInt 2])]
         [ {[ "id" := VInt 1 ]}; {[ "id" := VInt 3 ]}; ∅ ] = Ok l_in
    /\ partitions l_not_in l_in [ {[ "id" := VInt 1 ]}; {[ "id" := VInt 3 ]}; ∅ ].
Proof.
  destruct (not_in_in_partition "id" [VInt 1; VInt 2]
              [ {[ "id" := VInt 1 ]}; {[ "id" := VInt 3 ]}; ∅ ] eq_refl)
    as (l_not_in & l_in & H1 & H2 & H3 & _).
  exists l_not_in, l_in. repeat split; assumption || apply H3.
Defined.

(** X8: a key without operator means [equals]: for a field without two
    underscores in a row that does not end in an underscore, the queries
    [{f: v}] and [{f__equals: v}] return the same on every list: the records
    whose field equals [v]. *)
Theorem plain_key_is_equals
    (field : string) (v : value) (R : list (gmap string value))
    (Hplain : split_from "__" O "" field = [field])
    (Hfield : ends_with_underscore field = false) :
  commit [(field, v)] R = commit [(field +:+ "__equals", v)] R
  /\ commit [(field, v)] R
     = Ok (List.filter (fun entry => py_eq (entry_get entry field) v) R).
Proof.
  pose proof (resolve_plain field Hplain) as H1.
  assert (H2 : resolve (field +:+ "__equals") = (field, "equals"))
    by exact (resolve_with_operator field "equals" Hfield eq_refl).
  assert (Hc : forall key, resolve key = (field, "equals") ->
             commit [(key, v)] R
             = Ok (List.filter (fun entry => py_eq (entry_get entry field) v) R)).
  { intros key Hkey.
    apply (commit_single key field "equals" v
             (fun entry field v => py_eq (entry_get entry field) v)); [exact Hkey|].
    intros entry. unfold eval_predicate. cbn [fst snd]. now rewrite Hkey. }
  split; [|now apply Hc]. now rewrite (Hc _ H1), (Hc _ H2).
Qed.

Lemma plain_key_is_equals_witness :
  commit [("first_name", VStr "adam")] [ {[ "first_name" := VStr "adam" ]}; ∅ ]
  = commit [("first_name__equals", VStr "adam")] [ {[ "first_name" := VStr "adam" ]}; ∅ ].
Proof.
  exact (proj1 (plain_key_is_equals "first_name" (VStr "adam")
                  [ {[ "first_name" := VStr "adam" ]}; ∅ ] eq_refl eq_refl)).
Defined.

Lemma py_join_snoc (sep : string) (parts : list string) (p : string) :
  parts <> [] ->
  py_join sep (parts ++ [p])%list = py_join sep parts +:+ sep +:+ p.
Proof.
  induction parts as [|q parts IH]; intros Hne; [congruence|].
  destruct parts as [|q' parts].
  - reflexivity.
  - change ((q :: q' :: parts) ++ [p])%list with (q :: ((q' :: parts) ++ [p]))%list.
    rewrite py_join_cons by (destruct parts; discriminate).
    rewrite IH by discriminate.
    rewrite (py_join_cons sep q (q' :: parts)) by discriminate.
    now rewrite !append_assoc.
Qed.

Lemma no_dunder_in_one_part (text piece part : string) :
  split_from "__" O piece text = [part] -> str_contains "__" text = false.
Proof.
  revert piece. induction text as [|c rest IH]; intros piece; [reflexivity|].
  cbn [split_from str_contains].
  destruct (String.prefix "__" (String c rest)) eqn:Hp.
  - intros [= _ Hnil]. now apply split_from_nonempty in Hnil.
  - intros Hsplit. cbn [orb]. exact (IH _ Hsplit).
Qed.

Lemma str_contains_snoc (p : string) (c : ascii) :
  str_contains "__" (p +:+ String c "") = true ->
  str_contains "__" p = true \/ (ends_with_underscore p = true /\ c = "_"%char).
Proof.
  induction p as [|x p IH].
  - rewrite append_empty_l. cbn [str_contains String.prefix].
    destruct (ascii_dec "_" c); discriminate.
  - rewrite append_String. cbn [str_contains]. intros H.
    apply orb_true_iff in H as [H|H].
    + apply prefix_dunder in H as [tail [= -> Htail]].
      destruct p as [|y p'].
      * right. rewrite append_empty_l in Htail. injection Htail as -> _.
        split; reflexivity.
      * left. rewrite append_String in Htail. injection Htail as -> _.
        apply orb_true_iff. left. apply prefix_dunder. eauto.
    + destruct (IH H) as [Hp|[Hp ->]].
      * left. apply orb_true_iff. now right.
      * right. split; [|reflexivity].
        destruct p as [|y p']; [discriminate | exact Hp].
Qed.

Lemma ends_with_underscore_snoc (p : string) (c : ascii) :
  ends_with_underscore (p +:+ String c "") = Ascii.eqb c "_".
Proof.
  induction p as [|x p IH]; [reflexivity|].
  rewrite append_String. cbn [ends_with_underscore].
  destruct (p +:+ String c "") eqn:Hp; [|exact IH].
  destruct p; discriminate.
Qed.

(** No part that [split] gives contains the separator. *)
Lemma parts_have_no_dunder (text piece : string) :
  str_contains "__" piece = false ->
  (ends_with_underscore piece = true -> String.prefix "_" text = false) ->
  forall part, part ∈ split_from "__" O piece text -> str_contains "__" part = false.
Proof.
  revert piece. induction text as [text IH] using string_length_ind.
  intros piece Hpiece Hedge part Hpart.
  destruct text as [|c rest].
  - cbn [split_from] in Hpart. apply list_elem_of_In in Hpart.
    destruct Hpart as [<-|[]]. exact Hpiece.
  - destruct (String.prefix "__" (String c rest)) eqn:Hp.
    + apply prefix_dunder in Hp as [tail [= -> ->]].
      rewrite split_from_dunder in Hpart. apply list_elem_of_In in Hpart.
      destruct Hpart as [<-|Hpart]; [exact Hpiece|].
      apply (IH tail ltac:(cbn [String.length]; lia) "");
        [reflexivity | discriminate | now apply list_elem_of_In].
    + cbn [split_from] in Hpart. rewrite Hp in Hpart.
      apply (IH rest ltac:(cbn [String.length]; lia) (piece +:+ String c ""));
        [| | exact Hpart].
      * destruct (str_contains "__" (piece +:+ String c "")) eqn:Hc; [|reflexivity].
        apply str_contains_snoc in Hc as [Hc|[Hend ->]]; [congruence|].
        specialize (Hedge Hend). cbn [String.prefix] in Hedge.
        destruct (ascii_dec "_" "_") as [_|Hn]; [|congruence].
        destruct rest; discriminate.
      * rewrite ends_with_underscore_snoc. intros Hc.
        apply Ascii.eqb_eq in Hc as ->.
        destruct rest as [|d rest']; [reflexivity|].
        cbn [String.prefix]. destruct (ascii_dec "_" d) as [<-|]; [|reflexivity].
        exfalso. rewrite (proj2 (prefix_dunder _)) in Hp by eauto. discriminate.
Qed.

(** X9: the key is the field and the operator it resolves to: either the
    key has no two underscores in a row, it is the field and the operator is
    [equals], or the key is the field, two underscores and the operator,
    and the operator has no two underscores in a row: it is what follows the
    last separator. *)
Theorem resolve_recomposes (key field operator : string)
    (Hkey : resolve key = (field, operator)) :
  (str_contains "__" key = false /\ key = field /\ operator = "equals")
  \/ (key = field +:+ "__" +:+ operator /\ str_contains "__" operator = false).
Proof.
  unfold resolve in Hkey.
  pose proof (py_join_split key "") as Hjoin. rewrite append_empty_l in Hjoin.
  pose proof (split_from_nonempty "__" O "" key) as Hne.
  pose proof (parts_have_no_dunder key "" eq_refl ltac:(discriminate)) as Hparts.
  destruct (Nat.eqb_spec (length (split_from "__" O "" key)) 1) as [Hlen|Hlen].
  - left. injection Hkey as <- <-.
    destruct (split_from "__" O "" key) as [|part [|? ?]] eqn:Hs; try discriminate.
    split; [exact (no_dunder_in_one_part key "" part Hs)|]. now split.
  - right. injection Hkey as <- <-. split.
    + rewrite (app_removelast_last "" Hne) in Hjoin at 1.
      rewrite py_join_snoc in Hjoin; [now symmetry|].
      intros Hnil.
      rewrite (app_removelast_last "" Hne), Hnil in Hlen. now apply Hlen.
    + apply Hparts. apply list_elem_of_In.
      rewrite (app_removelast_last "" Hne) at 2.
      apply in_or_app. right. now left.
Qed.

Lemma resolve_recomposes_witness :
  (str_contains "__" "teacher__name__in" = false
   /\ "teacher__name__in" = "teacher__name" /\ "in" = "equals")
  \/ ("teacher__name__in" = "teacher__name" +:+ "__" +:+ "in"
      /\ str_contains "__" "in" = false).
Proof.
  exact (resolve_recomposes "teacher__name__in" "teacher__name" "in" eq_refl).
Defined.

(** ** ContentFinder *)

Lemma lstrip_chars_fixed (cs : list ascii) :
  (forall c rest, cs = c :: rest -> is_space c = false) -> lstrip_chars cs = cs.
Proof.
  destruct cs as [|c rest]; intros H; [reflexivity|].
  cbn [lstrip_chars]. now rewrite (H c rest eq_refl).
Qed.

Lemma lstrip_chars_head (cs : list ascii) (c : ascii) (rest : list ascii) :
  lstrip_chars cs = c :: rest -> is_space c = false.
Proof.
  induction cs as [|d cs IH]; cbn [lstrip_chars]; [discriminate|].
  destruct (is_space d) eqn:Hd; [exact IH|].
  intros [= <- _]. exact Hd.
Qed.

Lemma lstrip_chars_suffix (cs : list ascii) :
  exists spaces, cs = (spaces ++ lstrip_chars cs)%list.
Proof.
  induction cs as [|d cs [spaces IH]]; cbn [lstrip_chars]; [now exists []|].
  destruct (is_space d).
  - exists (d :: spaces). cbn [app]. now rewrite <- IH.
  - now exists [].
Qed.

(** Stripping what was stripped changes nothing. *)
Lemma py_strip_idempotent (text : string) : py_strip (py_strip text) = py_strip text.
Proof.
  unfold py_strip. rewrite list_ascii_of_string_of_list_ascii.
  set (a := lstrip_chars (list_ascii_of_string text)).
  set (b' := lstrip_chars (rev a)).
  assert (Hb' : lstrip_chars b' = b').
  { apply lstrip_chars_fixed. intros c rest Hc.
    apply (lstrip_chars_head (rev a) c rest). exact Hc. }
  assert (Hb : lstrip_chars (rev b') = rev b').
  { apply lstrip_chars_fixed. intros c rest Hc.
    destruct (lstrip_chars_suffix (rev a)) as [spaces Hs]. fold b' in Hs.
    assert (Ha : a = (rev b' ++ rev spaces)%list).
    { rewrite <- (rev_involutive a), Hs. apply rev_app_distr. }
    rewrite Hc in Ha. cbn [app] in Ha.
    apply (lstrip_chars_head (list_ascii_of_string text) c (rest ++ rev spaces)%list).
    exact Ha. }
  now rewrite Hb, rev_involutive, Hb'.
Qed.

(** X10: the pieces a [ContentFinder] holds are trimmed and not empty:
    stripping a piece gives the piece, and no piece is the empty text. *)
Theorem pieces_are_trimmed
    (text separator : string) (self : ContentFinder) (piece : string)
    (Hinit : ContentFinder_init text separator = Ok self)
    (Hpiece : piece ∈ split self) :
  piece <> "" /\ py_strip piece = piece.
Proof.
  unfold ContentFinder_init in Hinit.
  apply bind_returns in Hinit as (pieces & _ & [= <-]). cbn [split] in Hpiece.
  apply list_elem_of_In, in_map_iff in Hpiece as (s & <- & Hs).
  apply filter_In in Hs as [_ Hs]. split.
  - intros Hempty. unfold str_truthy in Hs. rewrite Hempty in Hs. discriminate.
  - apply py_strip_idempotent.
Qed.

Lemma pieces_are_trimmed_witness :
  "b c" <> "" /\ py_strip "b c" = "b c".
Proof.
  refine (pieces_are_trimmed ("a" +:+ LF +:+ "  b c  " +:+ LF +:+ "   " +:+ LF) LF
            {| data := "a" +:+ LF +:+ "  b c  " +:+ LF +:+ "   " +:+ LF;
               split := ["a"; "b c"] |} "b c" _ _).
  - vm_compute. reflexivity.
  - right. left.
Defined.

Lemma str_contains_empty (text : string) : str_contains "" text = true.
Proof. destruct text as [|c [|d rest]]; reflexivity. Qed.

(** X11: the empty pattern is in every piece, so it anchors at the first
    piece: asked for the empty pattern alone, a finder with at least one
    piece returns its first piece. *)
Theorem empty_pattern_anchors_first
    (self : ContentFinder) (piece : string) (rest : list string)
    (Hsplit : split self = piece :: rest) :
  first_match_from "" (split self) 0 0
  /\ find_by_content self "" 0 None None = Ok (Piece piece).
Proof.
  split.
  - split; [lia|]. split.
    + exists piece. rewrite Hsplit. split; [reflexivity | apply str_contains_empty].
    + intros j p Hj. lia.
  - unfold find_by_content. rewrite Hsplit. cbn [first_containing].
    rewrite str_contains_empty. reflexivity.
Qed.

Lemma empty_pattern_anchors_first_witness :
  find_by_content {| data := "a b"; split := ["a"; "b"] |} "" 0 None None
  = Ok (Piece "a").
Proof.
  exact (proj2 (empty_pattern_anchors_first
                  {| data := "a b"; split := ["a"; "b"] |} "a" ["b"] eq_refl)).
Defined.

(** X12: when the pattern is found, no count is taken, a non-empty end
    pattern is given and no piece from the anchor on contains it, [end_idx]
    is never assigned and [find_by_content] fails with an unbound local
    variable, whatever the offset is. *)
Theorem end_pattern_not_found
    (self : ContentFinder) (pattern : string) (offset : Z) (count : option Z)
    (end_pattern : string) (anchor : nat)
    (Hanchor : first_match_from pattern (split self) 0 anchor)
    (Hcount : count_truthy count = false)
    (Hne : end_pattern <> "")
    (Hnone : forall j piece, (anchor <= j)%nat -> split self !! j = Some piece ->
               str_contains end_pattern piece = false) :
  find_by_content self pattern offset count (Some end_pattern)
  = Raise (UnboundLocalError "end_idx").
Proof.
  unfold find_by_content. rewrite Hcount.
  rewrite (end_pattern_truthy_Some end_pattern Hne).
  rewrite (first_containing_first_match pattern (split self) 0 anchor Hanchor).
  rewrite Z.add_0_l. cbn [read_local]. rewrite bind_Ok.
  pose proof (first_match_in_range _ _ _ _ Hanchor) as Hlt.
  rewrite py_slice_to_end by lia. cbn [default]. unfold id.
  rewrite first_containing_none; [reflexivity|].
  intros piece Hpiece. apply list_elem_of_lookup in Hpiece as [j Hj].
  rewrite lookup_drop in Hj. apply (Hnone (anchor + j)%nat piece); [lia | exact Hj].
Qed.

Lemma end_pattern_not_found_witness :
  find_by_content {| data := "END a b"; split := ["END"; "a"; "b"] |}
    "a" 0 None (Some "END")
  = Raise (UnboundLocalError "end_idx").
Proof.
  refine (end_pattern_not_found {| data := "END a b"; split := ["END"; "a"; "b"] |}
            "a" 0 None "END" 1%nat _ eq_refl _ _).
  - split; [lia|]. split.
    + exists "a". split; reflexivity.
    + intros j piece Hj. assert (j = O) as -> by lia. intros [= <-]. reflexivity.
  - discriminate.
  - intros j piece Hj Hpiece.
    destruct j as [|[|[|j]]]; [lia | | |]; cbn in Hpiece;
      [injection Hpiece as <- | injection Hpiece as <- | discriminate]; reflexivity.
Defined.

Lemma py_slice_forward {A} (l : list A) (lo hi : Z) :
  (0 <= lo <= hi)%Z ->
  py_slice l lo hi = take (Z.to_nat (hi - lo)) (drop (Z.to_nat lo) l).
Proof.
  intros H. unfold py_slice, slice_bound.
  destruct (Z.ltb_spec lo 0) as [?|_]; [lia|].
  destruct (Z.ltb_spec hi 0) as [?|_]; [lia|].
  destruct (Z_le_gt_dec lo (Z.of_nat (length l))) as [Hlo|Hlo].
  - rewrite (Z.min_l lo) by lia.
    destruct (Z_le_gt_dec hi (Z.of_nat (length l))) as [Hhi|Hhi].
    + now rewrite (Z.min_l hi) by lia.
    + rewrite (Z.min_r hi) by lia.
      rewrite !take_ge; [reflexivity | |]; rewrite length_drop; lia.
  - rewrite !Z.min_r by lia. rewrite Z.sub_diag. cbn [Z.to_nat take].
    rewrite (drop_ge l (Z.to_nat lo)) by lia. now rewrite take_nil.
Qed.

Lemma py_slice_backward {A} (l : list A) (lo hi : Z) :
  (0 <= hi <= lo)%Z -> py_slice l lo hi = [].
Proof.
  intros H. unfold py_slice, slice_bound.
  destruct (Z.ltb_spec lo 0) as [?|_]; [lia|].
  destruct (Z.ltb_spec hi 0) as [?|_]; [lia|].
  replace (Z.to_nat (Z.min hi (Z.of_nat (length l)) - Z.min lo (Z.of_nat (length l))))
    with O by lia.
  reflexivity.
Qed.

(** X13: the search for the end pattern starts at the anchor itself: when
    the piece at the anchor contains the non-empty end pattern too, and the
    offset is not negative, [find_by_content] returns the empty list. *)
Theorem end_pattern_at_anchor
    (self : ContentFinder) (pattern : string) (offset : Z) (count : option Z)
    (end_pattern : string) (anchor : nat) (piece : string)
    (Hanchor : first_match_from pattern (split self) 0 anchor)
    (Hcount : count_truthy count = false)
    (Hne : end_pattern <> "")
    (Hpiece : split self !! anchor = Some piece)
    (Hend : str_contains end_pattern piece = true)
    (Hoffset : (0 <= offset)%Z) :
  find_by_content self pattern offset count (Some end_pattern) = Ok (Pieces []).
Proof.
  rewrite (end_pattern_branch self pattern offset count end_pattern anchor anchor
             Hcount Hanchor Hne).
  - now rewrite py_slice_backward by lia.
  - split; [lia|]. split; [eauto|]. intros j p Hj. lia.
Qed.

Lemma end_pattern_at_anchor_witness :
  find_by_content {| data := "x START 1 END"; split := ["x"; "START"; "1"; "END"] |}
    "START" 1 None (Some "TART")
  = Ok (Pieces []).
Proof.
  refine (end_pattern_at_anchor
            {| data := "x START 1 END"; split := ["x"; "START"; "1"; "END"] |}
            "START" 1 None "TART" 1%nat "START" _ eq_refl _ eq_refl eq_refl _).
  - split; [lia|]. split.
    + exists "START". split; reflexivity.
    + intros j piece Hj. assert (j = O) as -> by lia. intros [= <-]. reflexivity.
  - discriminate.
  - lia.
Defined.

(** X14: with neither count nor end pattern, the index anchor+offset is read
    as Python reads an index: from the start when it is in [0, n), from the
    end when it is in [-n, 0), and as an [IndexError] otherwise, [n] being
    the number of pieces. *)
Theorem single_piece_bounds
    (self : ContentFinder) (pattern : string) (offset : Z) (count : option Z)
    (end_pattern : option string) (anchor : nat)
    (Hanchor : first_match_from pattern (split self) 0 anchor)
    (Hcount : count_truthy count = false)
    (Hend : end_pattern_truthy end_pattern = false) :
  let i := (Z.of_nat anchor + offset)%Z in
  let n := Z.of_nat (length (split self)) in
  ((0 <= i < n)%Z ->
   exists piece, split self !! Z.to_nat i = Some piece
     /\ find_by_content self pattern offset count end_pattern = Ok (Piece piece))
  /\ ((- n <= i < 0)%Z ->
      exists piece, split self !! Z.to_nat (i + n) = Some piece
        /\ find_by_content self pattern offset count end_pattern = Ok (Piece piece))
  /\ ((i < - n \/ n <= i)%Z ->
      find_by_content self pattern offset count end_pattern = Raise IndexError).
Proof.
  intros i n.
  rewrite (single_piece_branch self pattern offset count end_pattern anchor
             Hcount Hend Hanchor).
  fold i. unfold py_getitem. fold n.
  split; [|split].
  - intros Hi. destruct (Z.ltb_spec i 0) as [?|_]; [lia|].
    destruct (Z.leb_spec 0 i) as [_|?]; [|lia].
    destruct (Z.ltb_spec i n) as [_|?]; [|lia]. cbn [andb].
    destruct (lookup_lt_is_Some_2 (split self) (Z.to_nat i)) as [piece Hp]; [lia|].
    exists piece. now rewrite Hp.
  - intros Hi. destruct (Z.ltb_spec i 0) as [_|?]; [|lia].
    destruct (Z.leb_spec 0 (i + n)) as [_|?]; [|lia].
    destruct (Z.ltb_spec (i + n) n) as [_|?]; [|lia]. cbn [andb].
    destruct (lookup_lt_is_Some_2 (split self) (Z.to_nat (i + n))) as [piece Hp]; [lia|].
    exists piece. now rewrite Hp.
  - intros Hi. destruct (Z.ltb_spec i 0) as [Hneg|Hpos].
    + destruct (Z.leb_spec 0 (i + n)) as [?|_]; [lia | reflexivity].
    + destruct (Z.leb_spec 0 i) as [_|?]; [|lia].
      destruct (Z.ltb_spec i n) as [?|_]; [lia | reflexivity].
Qed.

Lemma single_piece_bounds_witness :
  (exists piece, ["a"; "b"; "c"] !! Z.to_nat (0 + -1 + 3) = Some piece
     /\ find_by_content {| data := "a b c"; split := ["a"; "b"; "c"] |}
          "a" (-1) None None = Ok (Piece piece))
  /\ find_by_content {| data := "a b c"; split := ["a"; "b"; "c"] |}
       "c" 1 None None = Raise IndexError.
Proof.
  assert (Ha : first_match_from "a" ["a"; "b"; "c"] 0 0).
  { split; [lia|]. split.
    - exists "a". split; reflexivity.
    - intros j piece Hj. lia. }
  assert (Hc : first_match_from "c" ["a"; "b"; "c"] 0 2).
  { split; [lia|]. split.
    - exists "c". split; reflexivity.
    - intros j piece Hj.
      assert (j = 0 \/ j = 1)%nat as [-> | ->] by lia; intros [= <-]; reflexivity. }
  split.
  - refine (proj1 (proj2 (single_piece_bounds
              {| data := "a b c"; split := ["a"; "b"; "c"] |}
              "a" (-1) None None 0%nat Ha eq_refl eq_refl)) _).
    cbn. lia.
  - refine (proj2 (proj2 (single_piece_bounds
              {| data := "a b c"; split := ["a"; "b"; "c"] |}
              "c" 1 None None 2%nat Hc eq_refl eq_refl)) _).
    cbn. lia.
Defined.

(** X15: the count is an end index counted from the anchor, not a number of
    pieces, and the slice is cut at the end of the list instead of failing:
    for 0 <= offset <= count, count not 0, the call returns at most
    count-offset pieces, those from index anchor+offset on. *)
Theorem count_slice_contents
    (self : ContentFinder) (pattern : string) (offset count : Z)
    (end_pattern : option string) (anchor : nat)
    (Hanchor : first_match_from pattern (split self) 0 anchor)
    (Hcount : count <> 0%Z)
    (Hoffset : (0 <= offset <= count)%Z) :
  find_by_content self pattern offset (Some count) end_pattern
  = Ok (Pieces (take (Z.to_nat (count - offset))
                  (drop (anchor + Z.to_nat offset) (split self))))
  /\ forall k : nat,
       (k < Z.to_nat (count - offset))%nat ->
       take (Z.to_nat (count - offset))
         (drop (anchor + Z.to_nat offset) (split self)) !! k
       = split self !! (anchor + Z.to_nat offset + k)%nat.
Proof.
  split.
  - unfold find_by_content. rewrite (count_truthy_Some count Hcount).
    rewrite (first_containing_first_match pattern (split self) 0 anchor Hanchor).
    rewrite Z.add_0_l. cbn [read_local default]. rewrite bind_Ok. unfold id.
    rewrite py_slice_forward by lia.
    replace (Z.to_nat (Z.of_nat anchor + count - (Z.of_nat anchor + offset)))
      with (Z.to_nat (count - offset)) by lia.
    replace (Z.to_nat (Z.of_nat anchor + offset))
      with (anchor + Z.to_nat offset)%nat by lia.
    reflexivity.
  - intros k Hk. rewrite lookup_take_lt by exact Hk. apply lookup_drop.
Qed.

Lemma count_slice_contents_witness :
  find_by_content {| data := "a b c d"; split := ["a"; "b"; "c"; "d"] |}
    "b" 1 (Some 9) None
  = Ok (Pieces ["c"; "d"]).
Proof.
  refine (proj1 (count_slice_contents
            {| data := "a b c d"; split := ["a"; "b"; "c"; "d"] |}
            "b" 1 9 None 1%nat _ _ _)).
  - split; [lia|]. split.
    + exists "b". split; reflexivity.
    + intros j piece Hj. assert (j = O) as -> by lia. intros [= <-]. reflexivity.
  - discriminate.
  - lia.
Defined.

Lemma scan_pieces_text (text : string) (pieces : list string) (i : Z) :
  scan_pieces (TextPattern text) pieces i = Ok (first_containing text pieces i).
Proof.
  revert i. induction pieces as [|piece rest IH]; intros i; [reflexivity|].
  cbn [scan_pieces first_containing pattern_in]. rewrite bind_Ok.
  destruct (str_contains text piece); [reflexivity | apply IH].
Qed.

Lemma find_by_content_any_text
    (utf8_decode : list Byte.byte -> option string) (self : ContentFinder)
    (pattern : pattern_arg) (text : string) (offset : Z) (count : option Z)
    (end_pattern : option string) :
  decode_pattern utf8_decode pattern = TextPattern text ->
  find_by_content_any utf8_decode self pattern offset count end_pattern
  = find_by_content self text offset count end_pattern.
Proof.
  intros Hdecode. unfold find_by_content_any, find_by_content.
  now rewrite Hdecode, scan_pieces_text, bind_Ok.
Qed.

(** X16: the decoding at the start of [find_by_content]: a text pattern is
    looked for as it is and bytes that decode as their text; bytes that do
    not decode stay bytes, and the call raises a type error at the first
    piece, or, with no piece at all, fails on the unbound [start_at]. *)
Theorem bytes_pattern_is_decoded
    (utf8_decode : list Byte.byte -> option string) (self : ContentFinder)
    (bytes : list Byte.byte) (offset : Z) (count : option Z)
    (end_pattern : option string) :
  (forall text,
      find_by_content_any utf8_decode self (TextPattern text) offset count end_pattern
      = find_by_content self text offset count end_pattern)
  /\ (forall text,
        utf8_decode bytes = Some text ->
        find_by_content_any utf8_decode self (BytesPattern bytes) offset count end_pattern
        = find_by_content self text offset count end_pattern)
  /\ (utf8_decode bytes = None ->
      (split self <> [] ->
       find_by_content_any utf8_decode self (BytesPattern bytes) offset count end_pattern
       = Raise TypeError)
      /\ (split self = [] ->
          find_by_content_any utf8_decode self (BytesPattern bytes) offset count end_pattern
          = Raise (UnboundLocalError "start_at"))).
Proof.
  split; [|split].
  - intros text. now apply find_by_content_any_text.
  - intros text Hdecode. apply find_by_content_any_text.
    cbn [decode_pattern]. now rewrite Hdecode.
  - intros Hdecode. unfold find_by_content_any. cbn [decode_pattern].
    rewrite Hdecode. split.
    + intros Hne. destruct (split self) as [|piece rest]; [congruence|]. reflexivity.
    + intros ->. cbn [scan_pieces]. rewrite bind_Ok.
      destruct (count_truthy count); [reflexivity|].
      destruct (end_pattern_truthy end_pattern); reflexivity.
Qed.

Lemma bytes_pattern_is_decoded_witness :
  find_by_content_any
    (fun bytes => match bytes with [x62] => Some "b" | _ => None end)
    {| data := "a b c"; split := ["a"; "b"; "c"] |} (BytesPattern [x62]) 1 None None
  = Ok (Piece "c")
  /\ find_by_content_any
       (fun bytes => match bytes with [x62] => Some "b" | _ => None end)
       {| data := "a b c"; split := ["a"; "b"; "c"] |} (BytesPattern [xff]) 1 None None
     = Raise TypeError.
Proof.
  pose proof (bytes_pattern_is_decoded
                (fun bytes => match bytes with [x62] => Some "b" | _ => None end)
                {| data := "a b c"; split := ["a"; "b"; "c"] |} [x62] 1 None None)
    as (_ & Hdecoded & _).
  pose proof (bytes_pattern_is_decoded
                (fun bytes => match bytes with [x62] => Some "b" | _ => None end)
                {| data := "a b c"; split := ["a"; "b"; "c"] |} [xff] 1 None None)
    as (_ & _ & Hbytes).
  split.
  - exact (Hdecoded "b" eq_refl).
  - apply (proj1 (Hbytes eq_refl)). discriminate.
Defined.

(** ** CrawlerRepository *)

(** X17: the base class fetches nothing: with its own hooks, [find] raises
    [NotImplementedError] for every id, not the "unknown entry" error, and
    [all] never returns: it raises the error of the required fields when one
    is missing from the query and [NotImplementedError] otherwise. *)
Theorem base_repository_fetches_nothing {World Id : Type}
    (required : gset string) (query : list (string * value))
    (str : Id -> result string) (tuple_items : Id -> option (list Id))
    (id : Id) (w : World) :
  find base_fetch_and_parse_one str tuple_items id w = (Raise NotImplementedError, w)
  /\ ((forall k, k ∈ required -> exists v, (k, v) ∈ query) ->
      all required query base_fetch_and_parse_all w = (Raise NotImplementedError, w))
  /\ (~ (forall k, k ∈ required -> exists v, (k, v) ∈ query) ->
      all required query base_fetch_and_parse_all w
      = (Raise (RuntimeError (MustBeFilteredBy required)), w))
  /\ (forall l w', all required query base_fetch_and_parse_all w <> (Ok l, w')).
Proof.
  split; [reflexivity|].
  assert (Hcases :
            all required query base_fetch_and_parse_all w = (Raise NotImplementedError, w)
            /\ (forall k, k ∈ required -> exists v, (k, v) ∈ query)
            \/ all required query base_fetch_and_parse_all w
               = (Raise (RuntimeError (MustBeFilteredBy required)), w)
               /\ ~ (forall k, k ∈ required -> exists v, (k, v) ∈ query)).
  { unfold all, _assert_valid_query.
    destruct (decide (required ⊆ list_to_set (map fst query))) as [Hsub|Hno].
    - left. split; [reflexivity|]. exact (proj1 (required_subset_keys _ _) Hsub).
    - right. split; [reflexivity|]. intros Hall. apply Hno.
      exact (proj2 (required_subset_keys _ _) Hall). }
  split; [|split].
  - intros Hall. destruct Hcases as [[H _]|[_ Hno]]; [exact H | contradiction].
  - intros Hno. destruct Hcases as [[_ Hall]|[H _]]; [contradiction | exact H].
  - intros l w'. destruct Hcases as [[H _]|[H _]]; rewrite H; discriminate.
Qed.

Lemma filter_new_query_empty (query : list (string * value)) :
  new_query ∅ query = query.
Proof.
  unfold new_query. apply filter_true. intros item _.
  apply bool_decide_eq_true. apply not_elem_of_empty.
Qed.

(** X18: a repository that requires no field, as the base class declares,
    accepts every query: it filters the fetched records with the whole
    query, or, when a key of the query is named [self], raises the type
    error of the constructor of the filter after the hook has run. *)
Theorem all_without_required_fields {World : Type}
    (query : list (string * value))
    (fetch_all : World -> result (list (gmap string value)) * World)
    (w w' : World) (entries : list (gmap string value))
    (Hfetch : fetch_all w = (Ok entries, w')) :
  ((forall item, item ∈ query -> fst item <> "self") ->
   all ∅ query fetch_all w = (commit query entries, w'))
  /\ ((exists item, item ∈ query /\ fst item = "self") ->
      all ∅ query fetch_all w = (Raise TypeError, w')).
Proof.
  assert (Hall : all ∅ query fetch_all w
                 = (online_filter ← OnlineFilter_init query;
                    commit online_filter entries, w')).
  { unfold all, _assert_valid_query.
    destruct (decide ((∅ : gset string) ⊆ list_to_set (map fst query))) as [_|Hno].
    - now rewrite Hfetch, bind_Ok, filter_new_query_empty.
    - exfalso. apply Hno. apply empty_subseteq. }
  rewrite Hall. split.
  - intros Hno. now rewrite (OnlineFilter_init_ok _ Hno).
  - intros Hself. now rewrite (OnlineFilter_init_self _ Hself).
Qed.

Lemma all_without_required_fields_witness :
  all ∅ [("name", VStr "adam")]
    (fun calls : nat =>
       (Ok [ {[ "name" := VStr "kelly" ]}; {[ "name" := VStr "adam" ]} ], S calls)) O
  = (Ok [ {[ "name" := VStr "adam" ]} ], S O).
Proof.
  refine (proj1 (all_without_required_fields [("name", VStr "adam")]
                   (fun calls : nat =>
                      (Ok [ {[ "name" := VStr "kelly" ]}; {[ "name" := VStr "adam" ]} ],
                       S calls))
                   O (S O) _ eq_refl) _).
  intros item Hitem. apply list_elem_of_In in Hitem. simpl in Hitem.
  destruct Hitem as [<-|[]]. discriminate.
Defined.

(** X19: [all] invents no record: whenever it returns, the hook has
    returned, the required fields are keys of the query, and the result is
    a sublist of the fetched records, in their order. *)
Theorem all_returns_fetched_records {World : Type}
    (required : gset string) (query : list (string * value))
    (fetch_all : World -> result (list (gmap string value)) * World)
    (w w' : World) (l : list (gmap string value))
    (Hall : all required query fetch_all w = (Ok l, w')) :
  (forall k, k ∈ required -> exists v, (k, v) ∈ query)
  /\ exists entries,
       fetch_all w = (Ok entries, w')
       /\ sublist l entries
       /\ l = List.filter (all_hold (new_query required query)) entries.
Proof.
  unfold all, _assert_valid_query in Hall.
  destruct (decide (required ⊆ list_to_set (map fst query))) as [Hsub|Hno];
    [|discriminate].
  split; [exact (proj1 (required_subset_keys _ _) Hsub)|].
  destruct (fetch_all w) as [[entries|e] w'']; [|discriminate].
  rewrite bind_Ok in Hall. injection Hall as Hcommit <-.
  exists entries. split; [reflexivity|].
  apply bind_returns in Hcommit as (online_filter & Hinit & Hcommit).
  apply OnlineFilter_init_returns in Hinit as ->.
  apply commit_returns_iff in Hcommit as [_ ->].
  split; [apply filter_sublist | reflexivity].
Qed.

Lemma all_returns_fetched_records_witness :
  exists entries : list (gmap string value),
    sublist [ {[ "name" := VStr "adam" ]} ] entries
    /\ [ {[ "name" := VStr "adam" ]} ]
       = List.filter (all_hold [("name", VStr "adam")]) entries.
Proof.
  assert (Hall :
            all ({[ "year" ]} : gset string)
              [("year", VInt 2015); ("name", VStr "adam")]
              (fun calls : nat =>
                 (Ok [ ({[ "name" := VStr "kelly" ]} : gmap string value);
                       {[ "name" := VStr "adam" ]} ], S calls)) O
            = (Ok [ ({[ "name" := VStr "adam" ]} : gmap string value) ], S O))
    by (vm_compute; reflexivity).
  destruct (all_returns_fetched_records _ _ _ _ _ _ Hall)
    as (_ & entries & _ & Hsub & Hfilter).
  exists entries. split; [exact Hsub | exact Hfilter].
Defined.

(** X20: [all] does not test the required fields on the records: when every
    key of the query is a required field, it returns the fetched records as
    they are. *)
Theorem all_with_only_required_keys {World : Type}
    (required : gset string) (query : list (string * value))
    (fetch_all : World -> result (list (gmap string value)) * World)
    (w w' : World) (entries : list (gmap string value))
    (Hkeys : forall item, item ∈ query -> fst item ∈ required)
    (Hrequired : forall k, k ∈ required -> exists v, (k, v) ∈ query)
    (Hfetch : fetch_all w = (Ok entries, w')) :
  new_query required query = []
  /\ all required query fetch_all w = (Ok entries, w').
Proof.
  assert (Hnew : new_query required query = []).
  { unfold new_query. apply filter_false. intros item Hitem.
    apply bool_decide_eq_false. intros Hnot. now apply Hnot, Hkeys. }
  split; [exact Hnew|].
  unfold all, _assert_valid_query.
  destruct (decide (required ⊆ list_to_set (map fst query))) as [_|Hno].
  - rewrite Hfetch, bind_Ok, Hnew.
    change (OnlineFilter_init []) with (Ok ([] : list (string * value))).
    now rewrite bind_Ok, commit_no_predicates.
  - exfalso. apply Hno. exact (proj2 (required_subset_keys _ _) Hrequired).
Qed.

Lemma all_with_only_required_keys_witness :
  all {[ "year" ]} [("year", VInt 2015)]
    (fun calls : nat => (Ok [ {[ "year" := VInt 1999 ]}; ∅ ], S calls)) O
  = (Ok [ {[ "year" := VInt 1999 ]}; ∅ ], S O).
Proof.
  refine (proj2 (all_with_only_required_keys {[ "year" ]} [("year", VInt 2015)]
                   (fun calls : nat => (Ok [ {[ "year" := VInt 1999 ]}; ∅ ], S calls))
                   O (S O) _ _ _ eq_refl)).
  - intros item Hitem. apply list_elem_of_In in Hitem. simpl in Hitem.
    destruct Hitem as [<-|[]]. now apply elem_of_singleton.
  - intros k Hk. apply elem_of_singleton in Hk as ->.
    exists (VInt 2015). left.
Defined.
